(** * The patent ledger of [main.py] and [python.py]

    A shallow embedding of the hash-chain engine: Python text and
    integers, [hashlib.sha256], [json.dumps(..., sort_keys=True)],
    [str(dict)], the [Block] and [Blockchain] classes of both files, the
    authenticity score and the statistics snapshot; around it the forms
    of both applications, the search tab, the export and the display of
    file sizes. *)

From Stdlib Require Import ZArith List String Ascii Bool Lia.
From Stdlib Require Import DecimalString DecimalZ DecimalPos Permutation Sorted.
From Stdlib Require Import QArith.
Import ListNotations.
Local Open Scope string_scope.
Local Open Scope list_scope.
Local Open Scope Z_scope.

(** ** Python values *)

(** A Python [str] is modelled by a Rocq [string] whose characters are the
    code points 0..255; [len] is then [String.length]. *)
Definition py_len (s : string) : Z := Z.of_nat (String.length s).

(** [str(n)] for an [int]: decimal digits, a leading [-] below zero. *)
Definition str_int (z : Z) : string := NilZero.string_of_int (Z.to_int z).

(** [s.encode()]: UTF-8, one byte below 128 and two bytes up to 255. *)
Fixpoint encode (s : string) : list Z :=
  match s with
  | EmptyString => []
  | String c r =>
      let n := Z.of_nat (nat_of_ascii c) in
      if n <? 128 then n :: encode r
      else (192 + n / 64) :: (128 + n mod 64) :: encode r
  end.

(** [s * n] for a one-character string: empty when [n <= 0]. *)
Fixpoint repeat_char (c : ascii) (n : nat) : string :=
  match n with
  | O => EmptyString
  | S k => String c (repeat_char c k)
  end.

Definition str_mul (c : ascii) (n : Z) : string := repeat_char c (Z.to_nat n).

(** [s[:n]]: the first [n] characters, or all but the last [-n] when [n]
    is negative. *)
Fixpoint take (n : nat) (s : string) : string :=
  match n, s with
  | S k, String c r => String c (take k r)
  | _, _ => EmptyString
  end.

Definition slice_to (s : string) (n : Z) : string :=
  if 0 <=? n then take (Z.to_nat n) s
  else take (Z.to_nat (py_len s + n)) s.

(** ** SHA-256 (FIPS 180-4), as [hashlib.sha256(...).hexdigest()] *)

Module SHA256.

(** Reduction modulo 2^32: the low 32 bits. *)
Definition w32 (x : Z) : Z := Z.land x 4294967295.

Definition add32 (x y : Z) : Z := w32 (x + y).

Definition rotr (n x : Z) : Z :=
  Z.lor (Z.shiftr x n) (w32 (Z.shiftl x (32 - n))).

Definition not32 (x : Z) : Z := 4294967295 - x.

Definition Ch (x y z : Z) : Z := Z.lxor (Z.land x y) (Z.land (not32 x) z).

Definition Maj (x y z : Z) : Z :=
  Z.lxor (Z.lxor (Z.land x y) (Z.land x z)) (Z.land y z).

Definition Sigma0 (x : Z) : Z :=
  Z.lxor (Z.lxor (rotr 2 x) (rotr 13 x)) (rotr 22 x).

Definition Sigma1 (x : Z) : Z :=
  Z.lxor (Z.lxor (rotr 6 x) (rotr 11 x)) (rotr 25 x).

Definition sigma0 (x : Z) : Z :=
  Z.lxor (Z.lxor (rotr 7 x) (rotr 18 x)) (Z.shiftr x 3).

Definition sigma1 (x : Z) : Z :=
  Z.lxor (Z.lxor (rotr 17 x) (rotr 19 x)) (Z.shiftr x 10).

(** The constants are not tabulated but computed as the standard defines
    them: the first 32 bits of the fractional parts of the cube roots (for
    [K]) and of the square roots (for [H0]) of the first primes. *)
Fixpoint root_bits (k n : Z) (bits : nat) (r : Z) : Z :=
  match bits with
  | O => r
  | S b =>
      let r' := r + 2 ^ Z.of_nat b in
      root_bits k n b (if r' ^ k <=? n then r' else r)
  end.

Definition frac_root (k p : Z) : Z :=
  w32 (root_bits k (p * 2 ^ (32 * k)) 40 0).

Definition is_prime (n : Z) : bool :=
  forallb (fun d => negb (n mod Z.of_nat d =? 0))
          (seq 2 (Z.to_nat n - 2)).

Definition primes : list Z :=
  Eval vm_compute in filter is_prime (map Z.of_nat (seq 2 310)).

Definition K : list Z := Eval vm_compute in map (frac_root 3) primes.

Record state := mkState
  { sa : Z; sb : Z; sc : Z; sd : Z; se : Z; sf : Z; sg : Z; sh : Z }.

Definition state_of_list (l : list Z) : state :=
  mkState (nth 0 l 0) (nth 1 l 0) (nth 2 l 0) (nth 3 l 0)
          (nth 4 l 0) (nth 5 l 0) (nth 6 l 0) (nth 7 l 0).

Definition H0 : state :=
  Eval vm_compute in state_of_list (map (frac_root 2) (firstn 8 primes)).

(** Padding: a 1 bit, zeros up to 56 mod 64, then the bit length on eight
    bytes, most significant first. *)
Fixpoint be_bytes (n : nat) (x : Z) : list Z :=
  match n with
  | O => []
  | S k => (x / 256 ^ Z.of_nat k) mod 256 :: be_bytes k x
  end.

Definition pad (msg : list Z) : list Z :=
  let l := Z.of_nat (List.length msg) in
  let z := Z.to_nat ((55 - l) mod 64) in
  msg ++ 128 :: repeat 0 z ++ be_bytes 8 (8 * l).

(** Sixteen big-endian words of a 64-byte block. *)
Fixpoint words (n : nat) (bs : list Z) : list Z :=
  match n, bs with
  | S k, b0 :: b1 :: b2 :: b3 :: r =>
      (((b0 * 256 + b1) * 256 + b2) * 256 + b3) :: words k r
  | _, _ => []
  end.

(** The message schedule, newest word first: [ws] always holds the sixteen
    most recent words. *)
Definition next_word (ws : list Z) : Z :=
  add32 (add32 (sigma1 (nth 1 ws 0)) (nth 6 ws 0))
        (add32 (sigma0 (nth 14 ws 0)) (nth 15 ws 0)).

Definition round (s : state) (k w : Z) : state :=
  let t1 := add32 (add32 (add32 (sh s) (Sigma1 (se s)))
                         (add32 (Ch (se s) (sf s) (sg s)) k)) w in
  let t2 := add32 (Sigma0 (sa s)) (Maj (sa s) (sb s) (sc s)) in
  mkState (add32 t1 t2) (sa s) (sb s) (sc s)
          (add32 (sd s) t1) (se s) (sf s) (sg s).

(** Rounds 0..15 consume the block's own words. *)
Fixpoint rounds_head (s : state) (ks ws done : list Z)
  : state * list Z * list Z :=
  match ws, ks with
  | w :: ws', k :: ks' => rounds_head (round s k w) ks' ws' (w :: done)
  | _, _ => (s, ks, done)
  end.

(** Rounds 16..63 extend the schedule as they go. *)
Fixpoint rounds_tail (s : state) (ks recent : list Z) : state :=
  match ks with
  | [] => s
  | k :: ks' =>
      let w := next_word recent in
      rounds_tail (round s k w) ks' (w :: firstn 15 recent)
  end.

Definition compress (h : state) (blk : list Z) : state :=
  let '(s, ks, recent) := rounds_head h K (words 16 blk) [] in
  let s' := rounds_tail s ks recent in
  mkState (add32 (sa h) (sa s')) (add32 (sb h) (sb s'))
          (add32 (sc h) (sc s')) (add32 (sd h) (sd s'))
          (add32 (se h) (se s')) (add32 (sf h) (sf s'))
          (add32 (sg h) (sg s')) (add32 (sh h) (sh s')).

Fixpoint blocks (fuel : nat) (h : state) (bs : list Z) : state :=
  match fuel, bs with
  | S k, _ :: _ => blocks k (compress h (firstn 64 bs)) (skipn 64 bs)
  | _, _ => h
  end.

Definition digest (msg : list Z) : state :=
  let p := pad msg in
  blocks (List.length p) H0 p.

Definition hex_digit (n : Z) : ascii :=
  nth (Z.to_nat n) (list_ascii_of_string "0123456789abcdef") "0"%char.

Definition hex8 (w : Z) : string :=
  String (hex_digit ((w / 268435456) mod 16))
  (String (hex_digit ((w / 16777216) mod 16))
  (String (hex_digit ((w / 1048576) mod 16))
  (String (hex_digit ((w / 65536) mod 16))
  (String (hex_digit ((w / 4096) mod 16))
  (String (hex_digit ((w / 256) mod 16))
  (String (hex_digit ((w / 16) mod 16))
  (String (hex_digit (w mod 16)) EmptyString))))))).

Definition hex_of_state (s : state) : string :=
  hex8 (sa s) ++ hex8 (sb s) ++ hex8 (sc s) ++ hex8 (sd s) ++
  hex8 (se s) ++ hex8 (sf s) ++ hex8 (sg s) ++ hex8 (sh s).

(** [hashlib.sha256(bs).hexdigest()] *)
Definition hexdigest (bs : list Z) : string := hex_of_state (digest bs).

End SHA256.

(** [hashlib.sha256(s.encode()).hexdigest()] *)
Definition sha256_hex (s : string) : string := SHA256.hexdigest (encode s).

(** ** Values stored in a payload, and their two serializations *)

(** The values a [data] dict of this program holds. *)
Inductive pyval :=
| PyStr (s : string)
| PyBool (b : bool)
| PyInt (z : Z)
| PyNone.

(** A [dict] with [str] keys, in insertion order (keys are unique). *)
Definition dict := list (string * pyval).

(** [d.get(k)]: [None] when the key is absent. *)
Fixpoint dict_get (d : dict) (k : string) : option pyval :=
  match d with
  | [] => None
  | (k', v) :: r => if String.eqb k' k then Some v else dict_get r k
  end.

(** [d.get(k, default)] *)
Definition dict_get_default (d : dict) (k : string) (default : pyval) : pyval :=
  match dict_get d k with
  | Some v => v
  | None => default
  end.

(** Truth value of an object, as [if x:] and [all(...)] test it. *)
Definition truthy (v : pyval) : bool :=
  match v with
  | PyStr s => negb (String.eqb s "")
  | PyBool b => b
  | PyInt z => negb (z =? 0)
  | PyNone => false
  end.

Definition hex_string (width : nat) (n : Z) : string :=
  (fix go (k : nat) : string :=
     match k with
     | O => EmptyString
     | S j => String (SHA256.hex_digit ((n / 16 ^ Z.of_nat j) mod 16)) (go j)
     end) width.

Definition code (c : ascii) : Z := Z.of_nat (nat_of_ascii c).

(** One character of a JSON string under [ensure_ascii=True]: the short
    escapes, and [\uXXXX] for everything outside the range space..tilde. *)
Definition json_escape_char (c : ascii) : string :=
  let n := code c in
  if n =? 34 then "\" ++ String c ""
  else if n =? 92 then "\\"
  else if n =? 10 then "\n"
  else if n =? 13 then "\r"
  else if n =? 9 then "\t"
  else if n =? 8 then "\b"
  else if n =? 12 then "\f"
  else if (32 <=? n) && (n <=? 126) then String c ""
  else "\u" ++ hex_string 4 n.

Fixpoint json_escape (s : string) : string :=
  match s with
  | EmptyString => ""
  | String c r => json_escape_char c ++ json_escape r
  end.

Definition dquote : string := String (ascii_of_nat 34) "".
Definition squote : string := String (ascii_of_nat 39) "".

Definition json_string (s : string) : string := dquote ++ json_escape s ++ dquote.

Definition json_value (v : pyval) : string :=
  match v with
  | PyStr s => json_string s
  | PyBool true => "true"
  | PyBool false => "false"
  | PyInt z => str_int z
  | PyNone => "null"
  end.

(** [sorted(d.items())]: by key, in code-point order. *)
Fixpoint insert_item (kv : string * pyval) (l : dict) : dict :=
  match l with
  | [] => [kv]
  | kv' :: r =>
      if String.leb (fst kv) (fst kv') then kv :: l
      else kv' :: insert_item kv r
  end.

Fixpoint sort_items (d : dict) : dict :=
  match d with
  | [] => []
  | kv :: r => insert_item kv (sort_items r)
  end.

Fixpoint join (sep : string) (l : list string) : string :=
  match l with
  | [] => ""
  | [x] => x
  | x :: r => x ++ sep ++ join sep r
  end.

Definition json_item (kv : string * pyval) : string :=
  json_string (fst kv) ++ ": " ++ json_value (snd kv).

(** [json.dumps(d, sort_keys=True)] *)
Definition json_dumps_sorted (d : dict) : string :=
  "{" ++ join ", " (map json_item (sort_items d)) ++ "}".

Fixpoint contains_char (n : Z) (s : string) : bool :=
  match s with
  | EmptyString => false
  | String c r => (code c =? n) || contains_char n r
  end.

(** [repr(s)] of a [str]: single quotes, unless the text has a single
    quote and no double quote; control and unprintable characters as
    [\xNN]. *)
Definition repr_char (quote : Z) (c : ascii) : string :=
  let n := code c in
  if (n =? quote) || (n =? 92) then "\" ++ String c ""
  else if n =? 9 then "\t"
  else if n =? 10 then "\n"
  else if n =? 13 then "\r"
  else if (n <? 32) || (n =? 127) then "\x" ++ hex_string 2 n
  else if n <? 127 then String c ""
  else if (n <=? 160) || (n =? 173) then "\x" ++ hex_string 2 n
  else String c "".

Fixpoint repr_chars (quote : Z) (s : string) : string :=
  match s with
  | EmptyString => ""
  | String c r => repr_char quote c ++ repr_chars quote r
  end.

Definition repr_str (s : string) : string :=
  if contains_char 39 s && negb (contains_char 34 s)
  then dquote ++ repr_chars 34 s ++ dquote
  else squote ++ repr_chars 39 s ++ squote.

Definition repr_value (v : pyval) : string :=
  match v with
  | PyStr s => repr_str s
  | PyBool true => "True"
  | PyBool false => "False"
  | PyInt z => str_int z
  | PyNone => "None"
  end.

Definition repr_item (kv : string * pyval) : string :=
  repr_str (fst kv) ++ ": " ++ repr_value (snd kv).

(** [str(d)] of a dict: the items in insertion order. *)
Definition str_dict (d : dict) : string :=
  "{" ++ join ", " (map repr_item d) ++ "}".

(** ** Exceptions and non-termination *)

Inductive exn :=
| AttributeError (attr : string)
| IndexError
| TypeError
| ValueError.

(** The outcome of running a piece of the program: a value, a raised
    exception, or a loop that used up the steps it was allowed. *)
Inductive outcome (A : Type) :=
| Ok (a : A)
| Raise (e : exn)
| OutOfFuel.

Arguments Ok {A} a.
Arguments Raise {A} e.
Arguments OutOfFuel {A}.

Definition bind {A B : Type} (m : outcome A) (k : A -> outcome B) : outcome B :=
  match m with
  | Ok a => k a
  | Raise e => Raise e
  | OutOfFuel => OutOfFuel
  end.

Notation "x <- m ;; k" := (bind m (fun x => k))
  (at level 61, m at next level, right associativity).

(** [obj.attr] on an instance whose attribute may not be assigned yet. *)
Definition getattr {A : Type} (name : string) (slot : option A) : outcome A :=
  match slot with
  | Some a => Ok a
  | None => Raise (AttributeError name)
  end.

(** [l[i]] for [0 <= i]. *)
Definition item {A : Type} (l : list A) (i : nat) : outcome A :=
  match nth_error l i with
  | Some a => Ok a
  | None => Raise IndexError
  end.

(** [l[-1]] *)
Definition last_item {A : Type} (l : list A) : outcome A :=
  match l with
  | [] => Raise IndexError
  | _ => item l (List.length l - 1)
  end.

(** ** [main.py] *)

Module Main.

(** *** [class Block] *)

Record Block := mkBlock
  { index : Z;
    timestamp : string;
    data : dict;
    previous_hash : string;
    nonce : Z;
    hash : string;
    merkle_root : string }.

Definition set_previous_hash (b : Block) (p : string) : Block :=
  mkBlock (index b) (timestamp b) (data b) p (nonce b) (hash b) (merkle_root b).

Definition set_nonce (b : Block) (n : Z) : Block :=
  mkBlock (index b) (timestamp b) (data b) (previous_hash b) n (hash b)
          (merkle_root b).

Definition set_hash (b : Block) (h : string) : Block :=
  mkBlock (index b) (timestamp b) (data b) (previous_hash b) (nonce b) h
          (merkle_root b).

Definition set_merkle_root (b : Block) (m : string) : Block :=
  mkBlock (index b) (timestamp b) (data b) (previous_hash b) (nonce b)
          (hash b) m.

(** The text that [calculate_hash] digests. *)
Definition block_string (b : Block) : string :=
  str_int (index b) ++ timestamp b ++ json_dumps_sorted (data b) ++
  previous_hash b ++ str_int (nonce b).

Definition calculate_hash (b : Block) : string := sha256_hex (block_string b).

Definition calculate_merkle_root (b : Block) : string :=
  sha256_hex (json_dumps_sorted (data b)).

(** [Block(index, timestamp, data, previous_hash, nonce=0)] *)
Definition Block_init (index : Z) (timestamp : string) (data : dict)
    (previous_hash : string) (nonce : Z) : Block :=
  let self := mkBlock index timestamp data previous_hash nonce "" "" in
  let self := set_hash self (calculate_hash self) in
  set_merkle_root self (calculate_merkle_root self).

(** The loop test of [mine_block]: [self.hash[:difficulty] != target]. *)
Definition meets_target (h : string) (difficulty : Z) : bool :=
  String.eqb (slice_to h difficulty) (str_mul "0" difficulty).

(** [mine_block]; each unit of [fuel] pays for one turn of the loop. *)
Fixpoint mine_block (fuel : nat) (self : Block) (difficulty : Z)
  : outcome Block :=
  if meets_target (hash self) difficulty then Ok self
  else
    match fuel with
    | O => OutOfFuel
    | S k =>
        let self := set_nonce self (nonce self + 1) in
        let self := set_hash self (calculate_hash self) in
        mine_block k self difficulty
    end.

(** *** [class Blockchain] *)

(** An instance holds the attributes assigned so far. *)
Record Blockchain := mkBlockchain
  { chain : option (list Block);
    difficulty : option Z;
    pending_transactions : option (list dict);
    mining_reward : option Z }.

Definition new_object : Blockchain := mkBlockchain None None None None.

Definition set_chain (self : Blockchain) (c : list Block) : Blockchain :=
  mkBlockchain (Some c) (difficulty self) (pending_transactions self)
               (mining_reward self).

Definition set_difficulty (self : Blockchain) (d : Z) : Blockchain :=
  mkBlockchain (chain self) (Some d) (pending_transactions self)
               (mining_reward self).

Definition set_pending_transactions (self : Blockchain) (l : list dict)
  : Blockchain :=
  mkBlockchain (chain self) (difficulty self) (Some l) (mining_reward self).

Definition set_mining_reward (self : Blockchain) (r : Z) : Blockchain :=
  mkBlockchain (chain self) (difficulty self) (pending_transactions self)
               (Some r).

Definition genesis_data : dict :=
  [ ("title", PyStr "Genesis Block");
    ("description", PyStr "First block in the patent blockchain");
    ("doc_hash", PyStr "");
    ("patent_type", PyStr "Genesis");
    ("is_on_blockchain", PyBool true);
    ("patent_id", PyStr "GENESIS-000");
    ("inventor", PyStr "System");
    ("status", PyStr "Active");
    ("priority", PyStr "Normal") ].

(** [create_genesis_block]; [now] is [str(datetime.datetime.now())]. *)
Definition create_genesis_block (now : string) (fuel : nat)
    (self : Blockchain) : outcome Block :=
  let genesis_block := Block_init 0 now genesis_data "0" 0 in
  d <- getattr "difficulty" (difficulty self) ;;
  mine_block fuel genesis_block d.

(** [Blockchain()]: the statements of [__init__] in their order. *)
Definition Blockchain_init (now : string) (fuel : nat) : outcome Blockchain :=
  let self := new_object in
  g <- create_genesis_block now fuel self ;;
  let self := set_chain self [g] in
  let self := set_difficulty self 2 in
  let self := set_pending_transactions self [] in
  let self := set_mining_reward self 100 in
  Ok self.

Definition get_latest_block (self : Blockchain) : outcome Block :=
  c <- getattr "chain" (chain self) ;;
  last_item c.

(** [add_block]: the ledger afterwards; the mined candidate is its last
    block. *)
Definition add_block (fuel : nat) (self : Blockchain) (new_block : Block)
  : outcome Blockchain :=
  latest <- get_latest_block self ;;
  let new_block := set_previous_hash new_block (hash latest) in
  d <- getattr "difficulty" (difficulty self) ;;
  new_block <- mine_block fuel new_block d ;;
  c <- getattr "chain" (chain self) ;;
  Ok (set_chain self (c ++ [new_block])).

(** The body of the [for] loop of [is_chain_valid], over the values [i]
    takes. *)
Fixpoint is_chain_valid_loop (c : list Block) (range : list nat)
  : outcome bool :=
  match range with
  | [] => Ok true
  | i :: rest =>
      current_block <- item c i ;;
      previous_block <- item c (i - 1) ;;
      if negb (String.eqb (hash current_block) (calculate_hash current_block))
      then Ok false
      else if negb (String.eqb (previous_hash current_block)
                               (hash previous_block))
      then Ok false
      else is_chain_valid_loop c rest
  end.

Definition is_chain_valid (self : Blockchain) : outcome bool :=
  c <- getattr "chain" (chain self) ;;
  is_chain_valid_loop c (seq 1 (List.length c - 1)).

(** *** Utility functions *)

Definition hash_file_bytes (file_bytes : list Z) : string :=
  SHA256.hexdigest file_bytes.

(** [len(x)]: defined on text, a [TypeError] on the other payload values. *)
Definition len (v : pyval) : outcome Z :=
  match v with
  | PyStr s => Ok (py_len s)
  | _ => Raise TypeError
  end.

(** [verify_patent_authenticity]; [randint] is what
    [random.randint(-5, 15)] returns in this call. *)
Definition verify_patent_authenticity (randint : Z) (patent_data : dict)
  : outcome Z :=
  let score := 50 in
  n <- len (dict_get_default patent_data "title" (PyStr "")) ;;
  let score := if n >? 10 then score + 10 else score in
  n <- len (dict_get_default patent_data "description" (PyStr "")) ;;
  let score := if n >? 50 then score + 15 else score in
  let score :=
    if truthy (dict_get_default patent_data "doc_hash" PyNone)
    then score + 20 else score in
  let score := score + randint in
  Ok (Z.min 100 (Z.max 0 score)).

(** *** [get_blockchain_stats] *)

Section Stats.

(** The [datetime] and [float] operations the function calls:
    [datetime.fromisoformat] ([None] for a [ValueError]),
    [(a - b).total_seconds()], [sum] of a list of floats, and the division
    of a float by an [int]. *)
Variable datetime : Type.
Variable fromisoformat : string -> option datetime.
Variable float : Type.
Variable total_seconds : datetime -> datetime -> float.
Variable fsum : list float -> float.
Variable fdiv : float -> Z -> float.

Inductive number :=
| Int (z : Z)
| Float (x : float).

Record stats := mkStats
  { total_blocks : Z;
    total_patents : Z;
    chain_valid : bool;
    average_block_time : number;
    total_hash_power : Z;
    latest_block_hash : string }.

Definition set_average_block_time (s : stats) (a : number) : stats :=
  mkStats (total_blocks s) (total_patents s) (chain_valid s) a
          (total_hash_power s) (latest_block_hash s).

(** [sum(block.nonce for block in chain)] *)
Definition sum_nonces (c : list Block) : Z :=
  fold_left (fun acc block => acc + nonce block) c 0.

(** [[datetime.fromisoformat(block.timestamp) for block in blocks]] *)
Fixpoint parse_timestamps (blocks : list Block) : outcome (list datetime) :=
  match blocks with
  | [] => Ok []
  | block :: rest =>
      match fromisoformat (timestamp block) with
      | None => Raise ValueError
      | Some t => ts <- parse_timestamps rest ;; Ok (t :: ts)
      end
  end.

(** [[(timestamps[i] - timestamps[i-1]).total_seconds() for i in range]] *)
Fixpoint time_diffs_over (timestamps : list datetime) (range : list nat)
  : outcome (list float) :=
  match range with
  | [] => Ok []
  | i :: rest =>
      a <- item timestamps i ;;
      b <- item timestamps (i - 1) ;;
      ds <- time_diffs_over timestamps rest ;;
      Ok (total_seconds a b :: ds)
  end.

Definition get_blockchain_stats (toy_chain : Blockchain) : outcome stats :=
  chain <- getattr "chain" (chain toy_chain) ;;
  valid <- is_chain_valid toy_chain ;;
  latest <- match chain with
            | [] => Ok "N/A"
            | _ => b <- last_item chain ;; Ok (hash b)
            end ;;
  let stats :=
    mkStats (Z.of_nat (List.length chain))
            (Z.of_nat (List.length chain) - 1)
            valid (Int 0) (sum_nonces chain) latest in
  if Z.of_nat (List.length chain) >? 1 then
    timestamps <- parse_timestamps (skipn 1 chain) ;;
    if Z.of_nat (List.length timestamps) >? 1 then
      time_diffs <- time_diffs_over timestamps
                      (seq 1 (List.length timestamps - 1)) ;;
      Ok (set_average_block_time stats
            (Float (fdiv (fsum time_diffs)
                         (Z.of_nat (List.length time_diffs)))))
    else Ok stats
  else Ok stats.

End Stats.

Arguments Int {float} z.
Arguments Float {float} x.
Arguments total_blocks {float} s.
Arguments total_patents {float} s.
Arguments chain_valid {float} s.
Arguments average_block_time {float} s.
Arguments total_hash_power {float} s.
Arguments latest_block_hash {float} s.

(** *** The submit form of [main] *)

(** What the widgets of the form return on submission. *)
Record form := mkForm
  { patent_title : string;
    inventor_name : string;
    patent_type : string;
    priority : string;
    store_option : string;
    estimated_value : Z;
    patent_description : string;
    uploaded_file : option (string * list Z);
    keywords : string;
    related_patents : string;
    collaboration : string;
    funding_source : string }.

(** What one handling of the form draws from outside: the fresh patent id,
    the random term of the score, the clock and the user's name. *)
Record draw := mkDraw
  { patent_id : string;
    randint : Z;
    now : string;
    username : string }.

(** The session state the handler changes: the ledger and the off-chain
    list (counters, notifications and the user's tally are display
    bookkeeping and are left out). *)
Record session := mkSession
  { toy_chain : Blockchain;
    off_chain_list : list (string * dict) }.

(** [str.isspace] on the code points 0..255. *)
Definition is_space (c : ascii) : bool :=
  let n := code c in
  ((9 <=? n) && (n <=? 13)) || ((28 <=? n) && (n <=? 32)) ||
  (n =? 133) || (n =? 160).

Fixpoint lstrip (l : list ascii) : list ascii :=
  match l with
  | c :: r => if is_space c then lstrip r else l
  | [] => []
  end.

(** [s.strip()] *)
Definition strip (s : string) : string :=
  string_of_list_ascii
    (rev (lstrip (rev (lstrip (list_ascii_of_string s))))).

(** [all([...])] *)
Definition all (l : list pyval) : bool := forallb truthy l.

Definition doc_hash_of (f : form) : string :=
  match uploaded_file f with
  | Some (_, file_bytes) => hash_file_bytes file_bytes
  | None =>
      if truthy (PyStr (strip (patent_description f)))
      then sha256_hex (patent_description f)
      else ""
  end.

Definition patent_data_of (d : draw) (f : form) (doc_hash : string)
    (verification_score : Z) : dict :=
  [ ("patent_id", PyStr (patent_id d));
    ("title", PyStr (patent_title f));
    ("description", PyStr (patent_description f));
    ("inventor", PyStr (inventor_name f));
    ("patent_type", PyStr (patent_type f));
    ("priority", PyStr (priority f));
    ("doc_hash", PyStr doc_hash);
    ("estimated_value", PyInt (estimated_value f));
    ("keywords", PyStr (keywords f));
    ("related_patents", PyStr (related_patents f));
    ("collaboration", PyStr (collaboration f));
    ("funding_source", PyStr (funding_source f));
    ("is_on_blockchain",
       PyBool (String.eqb (store_option f) "On Blockchain"));
    ("status", PyStr "Pending");
    ("verification_score", PyInt verification_score);
    ("created_by", PyStr (username d));
    ("file_name",
       match uploaded_file f with
       | Some (name, _) => PyStr name
       | None => PyNone
       end);
    ("file_size",
       match uploaded_file f with
       | Some (_, file_bytes) => PyInt (Z.of_nat (List.length file_bytes))
       | None => PyInt 0
       end) ].

(** The body of [if submitted:]. *)
Definition submit (fuel : nat) (d : draw) (f : form) (st : session)
  : outcome session :=
  if negb (all [PyStr (patent_title f); PyStr (inventor_name f);
                PyStr (patent_description f)])
  then Ok st
  else
    let doc_hash := doc_hash_of f in
    score <- verify_patent_authenticity (randint d)
               [ ("title", PyStr (patent_title f));
                 ("description", PyStr (patent_description f));
                 ("doc_hash", PyStr doc_hash) ] ;;
    let patent_data := patent_data_of d f doc_hash score in
    if truthy (dict_get_default patent_data "is_on_blockchain" PyNone)
    then
      c <- getattr "chain" (chain (toy_chain st)) ;;
      let new_block :=
        Block_init (Z.of_nat (List.length c)) (now d) patent_data "" 0 in
      ledger <- add_block fuel (toy_chain st) new_block ;;
      Ok (mkSession ledger (off_chain_list st))
    else
      Ok (mkSession (toy_chain st)
                    (off_chain_list st ++ [(now d, patent_data)])).

(** *** The search tab of [main] *)

(** [d[k] = v]: the value of a key that is there is replaced in place, a
    new key goes to the end. *)
Fixpoint dict_set (d : dict) (k : string) (v : pyval) : dict :=
  match d with
  | [] => [(k, v)]
  | (k', v') :: r =>
      if String.eqb k' k then (k', v) :: r else (k', v') :: dict_set r k v
  end.

(** [s.lower()] on the code points 0..255: the letters A..Z and the
    accented capitals 192..222, the sign 215 apart, move up by 32. *)
Definition lower_char (c : ascii) : ascii :=
  let n := code c in
  if ((65 <=? n) && (n <=? 90)) ||
     ((192 <=? n) && (n <=? 222) && negb (n =? 215))
  then ascii_of_nat (Z.to_nat (n + 32))
  else c.

Fixpoint lower (s : string) : string :=
  match s with
  | EmptyString => EmptyString
  | String c r => String (lower_char c) (lower r)
  end.

(** [s.startswith(t)] *)
Fixpoint starts_with (t s : string) : bool :=
  match t, s with
  | EmptyString, _ => true
  | String a t', String b s' => Ascii.eqb a b && starts_with t' s'
  | String _ _, EmptyString => false
  end.

(** [t in s] for two texts. *)
Fixpoint contains (t s : string) : bool :=
  if starts_with t s then true
  else
    match s with
    | EmptyString => false
    | String _ r => contains t r
    end.

(** [v.lower()]: text has the method, the other payload values raise. *)
Definition py_lower (v : pyval) : outcome string :=
  match v with
  | PyStr s => Ok (lower s)
  | _ => Raise (AttributeError "lower")
  end.

(** [a == b] *)
Definition py_eq (a b : pyval) : bool :=
  match a, b with
  | PyStr x, PyStr y => String.eqb x y
  | PyInt x, PyInt y => x =? y
  | PyBool x, PyBool y => Bool.eqb x y
  | PyBool x, PyInt y => (if x then 1 else 0) =? y
  | PyInt x, PyBool y => x =? (if y then 1 else 0)
  | PyNone, PyNone => true
  | _, _ => false
  end.

(** [enumerate(l)] *)
Definition enumerate {A : Type} (l : list A) : list (nat * A) :=
  combine (seq 0 (List.length l)) l.

(** The entry of a block in [all_patents]: a copy of the payload, then
    three assignments. *)
Definition patent_of_block (block : Block) : dict :=
  let patent := data block in
  let patent := dict_set patent "source" (PyStr "blockchain") in
  let patent := dict_set patent "block_index" (PyInt (index block)) in
  dict_set patent "hash" (PyStr (hash block)).

(** The entry of the off-chain record number [i]. *)
Definition patent_of_record (i : nat) (record : string * dict) : dict :=
  let patent := snd record in
  let patent := dict_set patent "source" (PyStr "off-chain") in
  let patent := dict_set patent "record_index" (PyInt (Z.of_nat i)) in
  dict_set patent "timestamp" (PyStr (fst record)).

Definition all_patents (st : session) : outcome (list dict) :=
  c <- getattr "chain" (chain (toy_chain st)) ;;
  Ok (map patent_of_block (skipn 1 c) ++
      map (fun ir => patent_of_record (fst ir) (snd ir))
          (enumerate (off_chain_list st))).

(** The test of the first comprehension: the three [in] tests joined by
    [or], each evaluated only when the ones before it failed. *)
Definition matches (search_term : string) (p : dict) : outcome bool :=
  title <- py_lower (dict_get_default p "title" (PyStr "")) ;;
  if contains (lower search_term) title then Ok true
  else
    description <- py_lower (dict_get_default p "description" (PyStr "")) ;;
    if contains (lower search_term) description then Ok true
    else
      inventor <- py_lower (dict_get_default p "inventor" (PyStr "")) ;;
      Ok (contains (lower search_term) inventor).

(** [[p for p in l if test(p)]] *)
Fixpoint select {A : Type} (test : A -> outcome bool) (l : list A)
  : outcome (list A) :=
  match l with
  | [] => Ok []
  | p :: r =>
      keep <- test p ;;
      rest <- select test r ;;
      Ok (if keep then p :: rest else rest)
  end.

(** The two filters of the tab, applied to [all_patents]. *)
Definition filter_patents (search_term filter_type : string)
    (all_patents : list dict) : outcome (list dict) :=
  filtered_patents <-
    (if truthy (PyStr search_term)
     then select (matches search_term) all_patents
     else Ok all_patents) ;;
  if negb (String.eqb filter_type "All")
  then Ok (filter (fun p => py_eq (dict_get_default p "patent_type" PyNone)
                                  (PyStr filter_type))
                  filtered_patents)
  else Ok filtered_patents.

(** *** [export_data] *)

(** [{**base, **d}]: the items of [d] assigned one by one. *)
Definition dict_update (base d : dict) : dict :=
  fold_left (fun acc kv => dict_set acc (fst kv) (snd kv)) d base.

Definition export_row_of_block (block : Block) : dict :=
  dict_update
    [ ("source", PyStr "blockchain");
      ("block_index", PyInt (index block));
      ("timestamp", PyStr (timestamp block));
      ("hash", PyStr (hash block)) ]
    (data block).

Definition export_row_of_record (i : nat) (record : string * dict) : dict :=
  dict_update
    [ ("source", PyStr "off-chain");
      ("record_index", PyInt (Z.of_nat i));
      ("timestamp", PyStr (fst record));
      ("hash", PyStr "N/A") ]
    (snd record).

(** The list [data] that [export_data] builds when the button is
    pressed. *)
Definition export_rows (include_blockchain include_offchain : bool)
    (st : session) : outcome (list dict) :=
  rows <-
    (if include_blockchain
     then c <- getattr "chain" (chain (toy_chain st)) ;;
          Ok (map export_row_of_block (skipn 1 c))
     else Ok []) ;;
  Ok (if include_offchain
      then rows ++ map (fun ir => export_row_of_record (fst ir) (snd ir))
                       (enumerate (off_chain_list st))
      else rows).

(** *** [get_file_size_str] *)

(** The integer nearest to [num / den], the even one of two that are
    equally near. *)
Definition round_half_even (num den : Z) : Z :=
  let q := num / den in
  let r := num mod den in
  if 2 * r <? den then q
  else if den <? 2 * r then q + 1
  else if Z.even q then q
  else q + 1.

(** [f"{num/den:.1f}"] for [0 <= num < 2**53] and [den] a power of two up
    to [2**30]: the quotient is then a float without rounding, and the
    format rounds its exact value to one decimal, ties to even. *)
Definition format_1f (num den : Z) : string :=
  let tenths := round_half_even (10 * num) den in
  str_int (tenths / 10) ++ "." ++ str_int (tenths mod 10).

Definition get_file_size_str (size_bytes : Z) : string :=
  if size_bytes <? 1024 then str_int size_bytes ++ " B"
  else if size_bytes <? 1024 ^ 2 then format_1f size_bytes 1024 ++ " KB"
  else if size_bytes <? 1024 ^ 3
       then format_1f size_bytes (1024 ^ 2) ++ " MB"
       else format_1f size_bytes (1024 ^ 3) ++ " GB".

End Main.

(** ** [python.py] *)

Module PythonPy.

Record Block := mkBlock
  { index : Z;
    timestamp : string;
    data : dict;
    previous_hash : string;
    hash : string }.

Definition set_previous_hash (b : Block) (p : string) : Block :=
  mkBlock (index b) (timestamp b) (data b) p (hash b).

Definition set_hash (b : Block) (h : string) : Block :=
  mkBlock (index b) (timestamp b) (data b) (previous_hash b) h.

Definition block_string (b : Block) : string :=
  str_int (index b) ++ timestamp b ++ str_dict (data b) ++ previous_hash b.

Definition calculate_hash (b : Block) : string := sha256_hex (block_string b).

Definition Block_init (index : Z) (timestamp : string) (data : dict)
    (previous_hash : string) : Block :=
  let self := mkBlock index timestamp data previous_hash "" in
  set_hash self (calculate_hash self).

Record Blockchain := mkBlockchain { chain : list Block }.

Definition genesis_data : dict :=
  [ ("title", PyStr "Genesis Block");
    ("description", PyStr "");
    ("doc_hash", PyStr "");
    ("patent_type", PyStr "");
    ("is_on_blockchain", PyBool true) ].

Definition create_genesis_block (now : string) : Block :=
  Block_init 0 now genesis_data "0".

Definition Blockchain_init (now : string) : Blockchain :=
  mkBlockchain [create_genesis_block now].

Definition get_latest_block (self : Blockchain) : outcome Block :=
  last_item (chain self).

Definition add_block (self : Blockchain) (new_block : Block)
  : outcome Blockchain :=
  latest <- get_latest_block self ;;
  let new_block := set_previous_hash new_block (hash latest) in
  let new_block := set_hash new_block (calculate_hash new_block) in
  Ok (mkBlockchain (chain self ++ [new_block])).

Definition hash_file_bytes (file_bytes : list Z) : string :=
  SHA256.hexdigest file_bytes.

(** *** The session state and the submit form of [main] *)

(** A counter per patent type: a dict from text to [int], in insertion
    order. *)
Definition counts := list (string * Z).

Record session := mkSession
  { toy_chain : Blockchain;
    off_chain_list : list (string * dict);
    patent_types : list string;
    counts_on_chain : counts;
    counts_off_chain : counts }.

Definition set_toy_chain (st : session) (b : Blockchain) : session :=
  mkSession b (off_chain_list st) (patent_types st) (counts_on_chain st)
            (counts_off_chain st).

Definition set_off_chain_list (st : session) (l : list (string * dict))
  : session :=
  mkSession (toy_chain st) l (patent_types st) (counts_on_chain st)
            (counts_off_chain st).

Definition set_counts_on_chain (st : session) (c : counts) : session :=
  mkSession (toy_chain st) (off_chain_list st) (patent_types st) c
            (counts_off_chain st).

Definition set_counts_off_chain (st : session) (c : counts) : session :=
  mkSession (toy_chain st) (off_chain_list st) (patent_types st)
            (counts_on_chain st) c.

Definition patent_types_list : list string :=
  [ "Utility Patent"; "Design Patent"; "Plant Patent";
    "Certificate of Amendment"; "Other" ].

(** [initialize_session_state] on a session state that holds none of the
    keys yet; [now] is the clock when the ledger is created. *)
Definition initialize_session_state (now : string) : session :=
  mkSession (Blockchain_init now) [] patent_types_list
            (map (fun ptype => (ptype, 0)) patent_types_list)
            (map (fun ptype => (ptype, 0)) patent_types_list).

(** What the widgets of the form return on submission. *)
Record form := mkForm
  { patent_title : string;
    patent_type : string;
    store_option : string;
    patent_description : string;
    uploaded_file : option (list Z) }.

(** How a run of the handler ends: normally, or with an exception, which
    is one of the engine or the [KeyError] of a subscript. *)
Inductive status :=
| Done
| Raised (e : exn)
| KeyError (key : string)
| Unfinished.

(** [c[k] += 1]; [None] when the key is missing. *)
Fixpoint increment (c : counts) (k : string) : option counts :=
  match c with
  | [] => None
  | (k', n) :: r =>
      if String.eqb k' k then Some ((k', n + 1) :: r)
      else match increment r k with
           | Some r' => Some ((k', n) :: r')
           | None => None
           end
  end.

Definition doc_hash_of (f : form) : string :=
  match uploaded_file f with
  | Some file_bytes => hash_file_bytes file_bytes
  | None =>
      if truthy (PyStr (Main.strip (patent_description f)))
      then sha256_hex (patent_description f)
      else ""
  end.

Definition block_data_of (f : form) (doc_hash : string) : dict :=
  [ ("title", PyStr (patent_title f));
    ("description", PyStr (patent_description f));
    ("doc_hash", PyStr doc_hash);
    ("patent_type", PyStr (patent_type f));
    ("is_on_blockchain",
       PyBool (String.eqb (store_option f) "On Blockchain")) ].

(** The body of [if submitted:]: the session state it leaves behind and
    how it ended. State already changed when an exception is raised stays
    changed. *)
Definition submit (now : string) (f : form) (st : session)
  : session * status :=
  if negb (truthy (PyStr (patent_title f))) then (st, Done)
  else
    let doc_hash := doc_hash_of f in
    let block_data := block_data_of f doc_hash in
    match dict_get block_data "is_on_blockchain" with
    | None => (st, KeyError "is_on_blockchain")
    | Some flag =>
        if truthy flag then
          let new_block :=
            Block_init (Z.of_nat (List.length (chain (toy_chain st)))) now
                       block_data "" in
          match add_block (toy_chain st) new_block with
          | Ok ledger =>
              let st := set_toy_chain st ledger in
              match increment (counts_on_chain st) (patent_type f) with
              | Some c => (set_counts_on_chain st c, Done)
              | None => (st, KeyError (patent_type f))
              end
          | Raise e => (st, Raised e)
          | OutOfFuel => (st, Unfinished)
          end
        else
          let st :=
            set_off_chain_list st (off_chain_list st ++ [(now, block_data)]) in
          match increment (counts_off_chain st) (patent_type f) with
          | Some c => (set_counts_off_chain st c, Done)
          | None => (st, KeyError (patent_type f))
          end
    end.

End PythonPy.

(** ** The properties, in the words of the specification *)

(** [l] with the element at position [i] replaced (a field of that block
    mutated in place). *)
Fixpoint replace_at {A : Type} (l : list A) (i : nat) (x : A) : list A :=
  match l, i with
  | [], _ => []
  | _ :: r, O => x :: r
  | a :: r, S j => a :: replace_at r j x
  end.

(** The first [d] characters of [h] are all the digit zero. *)
Definition leading_zeros (h : string) (d : Z) : Prop :=
  forall k : nat, (k < Z.to_nat d)%nat -> String.get k h = Some "0"%char.

Definition is_hex_char (c : ascii) : Prop :=
  In c (list_ascii_of_string "0123456789abcdef").

(** A digest as it is displayed: 64 lowercase hexadecimal characters. *)
Definition hex64 (h : string) : Prop :=
  String.length h = 64%nat /\ Forall is_hex_char (list_ascii_of_string h).

(** Block [i] of [c] carries the hash of its own fields and the stored
    hash of block [i - 1]. *)
Definition link_ok (c : list Main.Block) (i : nat) : Prop :=
  exists cur prev,
    nth_error c i = Some cur /\ nth_error c (i - 1) = Some prev /\
    Main.hash cur = Main.calculate_hash cur /\
    Main.previous_hash cur = Main.hash prev.

(** [b'] is [b] after one field was assigned a different value, the stored
    hash left as it was; for the payload, a value whose canonical
    serialization differs. *)
Inductive mutation (b : Main.Block) : Main.Block -> Prop :=
| mutate_index (i : Z) :
    i <> Main.index b ->
    mutation b (Main.mkBlock i (Main.timestamp b) (Main.data b)
                  (Main.previous_hash b) (Main.nonce b) (Main.hash b)
                  (Main.merkle_root b))
| mutate_timestamp (t : string) :
    t <> Main.timestamp b ->
    mutation b (Main.mkBlock (Main.index b) t (Main.data b)
                  (Main.previous_hash b) (Main.nonce b) (Main.hash b)
                  (Main.merkle_root b))
| mutate_data (d : dict) :
    json_dumps_sorted d <> json_dumps_sorted (Main.data b) ->
    mutation b (Main.mkBlock (Main.index b) (Main.timestamp b) d
                  (Main.previous_hash b) (Main.nonce b) (Main.hash b)
                  (Main.merkle_root b))
| mutate_previous_hash (p : string) :
    p <> Main.previous_hash b ->
    mutation b (Main.set_previous_hash b p)
| mutate_nonce (n : Z) :
    n <> Main.nonce b ->
    mutation b (Main.set_nonce b n).

(** The order [sorted] puts the items in: by key. *)
Definition key_le (x y : string * pyval) : Prop :=
  String.leb (fst x) (fst y) = true.

(** Two association lists that are one and the same Python dict: the same
    items, each key once. *)
Definition same_dict (d1 d2 : dict) : Prop :=
  Permutation d1 d2 /\ NoDup (map fst d1).

(** Field [k] of a record reads [s]; a record without the field reads as
    one whose field is empty. *)
Definition text_field (record : dict) (k s : string) : Prop :=
  dict_get record k = Some (PyStr s) \/ (dict_get record k = None /\ s = "").

(** The score as section 4.3 words it, [bonus] being the random term. *)
Definition clamp (lo hi x : Z) : Z := Z.min hi (Z.max lo x).

Definition score_spec (title description doc_hash : string) (bonus : Z) : Z :=
  clamp 0 100
    (50 + (if py_len title >? 10 then 10 else 0)
        + (if py_len description >? 50 then 15 else 0)
        + (if String.eqb doc_hash "" then 0 else 20)
        + bonus).

(** The differences between neighbours of a list, later minus earlier. *)
Fixpoint consecutive {A B : Type} (minus : A -> A -> B) (l : list A) : list B :=
  match l with
  | a :: (b :: _) as r => minus b a :: consecutive minus r
  | _ => []
  end.

(** The timestamp of block [b] parses to [t]. *)
Definition parses {datetime : Type} (fromisoformat : string -> option datetime)
    (b : Main.Block) (t : datetime) : Prop :=
  fromisoformat (Main.timestamp b) = Some t.

(** The sum of the nonces, block by block. *)
Fixpoint total_nonce (c : list Main.Block) : Z :=
  match c with
  | [] => 0
  | b :: r => Main.nonce b + total_nonce r
  end.

(** *** The session of [python.py] *)

(** A chain of [python.py] in good order: every block stores the hash of
    its own fields and sits at its index; the first block links to ["0"]
    and every other block to the stored hash of the block before it. *)
Definition python_chain_ok (c : list PythonPy.Block) : Prop :=
  forall (i : nat) (b : PythonPy.Block),
    nth_error c i = Some b ->
    PythonPy.hash b = PythonPy.calculate_hash b /\
    PythonPy.index b = Z.of_nat i /\
    match i with
    | O => PythonPy.previous_hash b = "0"
    | S j =>
        exists p, nth_error c j = Some p /\
                  PythonPy.previous_hash b = PythonPy.hash p
    end.

(** The session states the application of [python.py] can be in: the
    initial one, and those any number of submissions lead to, each with a
    patent type that the select box offers. *)
Inductive python_reachable : PythonPy.session -> Prop :=
| reach_init (now : string) :
    python_reachable (PythonPy.initialize_session_state now)
| reach_submit (now : string) (f : PythonPy.form) (st : PythonPy.session) :
    python_reachable st ->
    In (PythonPy.patent_type f) (PythonPy.patent_types st) ->
    python_reachable (fst (PythonPy.submit now f st)).

(** The sum of the counters. *)
Definition counts_total (c : PythonPy.counts) : Z :=
  fold_right Z.add 0 (map snd c).

(** *** The search tab of [main.py] *)

(** The text [t] occurs in the text [s]. *)
Definition occurs_in (t s : string) : Prop :=
  exists a b : string, s = (a ++ t ++ b)%string.

(** The three fields the search reads are text in [p], or missing. *)
Definition searchable (p : dict) : Prop :=
  forall k, In k ["title"; "description"; "inventor"] ->
            exists s, text_field p k s.

(** The term occurs, letter case apart, in the title, the description or
    the inventor of [p]. *)
Definition hit (term : string) (p : dict) : Prop :=
  exists k s,
    In k ["title"; "description"; "inventor"] /\
    text_field p k s /\
    occurs_in (Main.lower term) (Main.lower s).

(** The keys that precede the payload in a row of the export of a block. *)
Definition export_header (block : Main.Block) : dict :=
  [ ("source", PyStr "blockchain");
    ("block_index", PyInt (Main.index block));
    ("timestamp", PyStr (Main.timestamp block));
    ("hash", PyStr (Main.hash block)) ].

(** The text [s] shows [n / den] to one decimal, followed by the unit:
    the decimal shown is within half a tenth of the quotient. *)
Definition shown_as (n den : Z) (unit s : string) : Prop :=
  exists tenths : Z,
    s = (str_int (tenths / 10) ++ "." ++ str_int (tenths mod 10) ++ " "
         ++ unit)%string /\
    2 * Z.abs (10 * n - den * tenths) <= den.

(** A record with a title that is not empty, stored where its flag
    says. *)
Definition filed (on_chain : bool) (record : dict) : Prop :=
  (exists t, dict_get record "title" = Some (PyStr t) /\ t <> "") /\
  dict_get record "is_on_blockchain" = Some (PyBool on_chain).

(** ** A clock and exact seconds, for the examples *)

Module Clock.

(** A naive [datetime] as its microseconds since the start of year 1, read
    from the two shapes [str(datetime)] prints: [YYYY-MM-DD HH:MM:SS] and
    the same followed by a dot and six digits. *)
Definition digit (c : ascii) : option Z :=
  let n := code c in
  if (48 <=? n) && (n <=? 57) then Some (n - 48) else None.

Fixpoint number (n : nat) (acc : Z) (s : string) : option (Z * string) :=
  match n with
  | O => Some (acc, s)
  | S k =>
      match s with
      | String c r =>
          match digit c with
          | Some d => number k (10 * acc + d) r
          | None => None
          end
      | EmptyString => None
      end
  end.

Definition expect (n : Z) (s : string) : option string :=
  match s with
  | String c r => if code c =? n then Some r else None
  | EmptyString => None
  end.

Definition is_leap (y : Z) : bool :=
  (y mod 4 =? 0) && (negb (y mod 100 =? 0) || (y mod 400 =? 0)).

Definition days_before_month (y m : Z) : Z :=
  nth (Z.to_nat (m - 1))
      [0; 31; 59; 90; 120; 151; 181; 212; 243; 273; 304; 334] 0
  + (if (m >? 2) && is_leap y then 1 else 0).

Definition days_in_month (y m : Z) : Z :=
  if (m =? 2) && is_leap y then 29
  else nth (Z.to_nat (m - 1)) [31; 28; 31; 30; 31; 30; 31; 31; 30; 31; 30; 31] 0.

Definition days_before_year (y : Z) : Z :=
  let y := y - 1 in y * 365 + y / 4 - y / 100 + y / 400.

Definition ymd2ord (y m d : Z) : Z :=
  days_before_year y + days_before_month y m + d.

Definition fromisoformat (s : string) : option Z :=
  match number 4 0 s with
  | Some (y, s) =>
  match expect 45 s with Some s =>
  match number 2 0 s with Some (m, s) =>
  match expect 45 s with Some s =>
  match number 2 0 s with Some (d, s) =>
  match expect 32 s with Some s =>
  match number 2 0 s with Some (hh, s) =>
  match expect 58 s with Some s =>
  match number 2 0 s with Some (mm, s) =>
  match expect 58 s with Some s =>
  match number 2 0 s with Some (ss, s) =>
    let frac :=
      match s with
      | EmptyString => Some 0
      | _ =>
          match expect 46 s with
          | Some s =>
              match number 6 0 s with
              | Some (us, EmptyString) => Some us
              | _ => None
              end
          | None => None
          end
      end in
    match frac with
    | Some us =>
        if (1 <=? y) && (1 <=? m) && (m <=? 12) && (1 <=? d)
           && (d <=? days_in_month y m) && (hh <? 24) && (mm <? 60)
           && (ss <? 60)
        then Some ((((ymd2ord y m d * 24 + hh) * 60 + mm) * 60 + ss)
                   * 1000000 + us)
        else None
    | None => None
    end
  | None => None end | None => None end | None => None end
  | None => None end | None => None end | None => None end
  | None => None end | None => None end | None => None end
  | None => None end
  | None => None
  end.

(** Seconds as exact fractions, kept in lowest terms. *)
Definition total_seconds (a b : Z) : Q := Qred (Qmake (a - b) 1000000).

Definition fsum (l : list Q) : Q := Qred (fold_left Qplus l (Qmake 0 1)).

Definition fdiv (x : Q) (n : Z) : Q := Qred (Qdiv x (inject_Z n)).

End Clock.

(** ** A session, for the examples *)

Module Sample.

Import Main.

Definition now0 : string := "2024-03-15 10:30:00.100008".

Definition genesis_hash : string :=
  "005acedcc801bc70e6eb28c3ba028c8bf5ecfa0d965f7b562b9d38f59a87ba32".

(** The genesis block [create_genesis_block] mines at difficulty 2 when
    the clock reads [now0]. *)
Definition genesis : Block :=
  mkBlock 0 now0 genesis_data "0" 1 genesis_hash
    "ed615df2a9ca613991ecf971a0aa1bd70c3f486b1d7781021542a7781ce27e72".

(** The instance the four assignments of [__init__] describe. *)
Definition ledger : Blockchain :=
  mkBlockchain (Some [genesis]) (Some 2) (Some []) (Some 100).

Definition formA : form :=
  mkForm "Self-sealing valve" "Ada Park" "Utility Patent" "Normal"
    "On Blockchain" 10000
    "A valve that closes itself when the downstream pressure drops below a set level."
    None "valve, pressure" "" "" "".

Definition drawA : draw :=
  mkDraw "PAT-3F9A1C2E" 5 "2024-03-15 10:30:07.100037" "demo_user".

(** The same submission, 109 microseconds later. *)
Definition drawA' : draw :=
  mkDraw "PAT-3F9A1C2E" 5 "2024-03-15 10:30:07.100146" "demo_user".

Definition dataA : dict :=
  [ ("patent_id", PyStr "PAT-3F9A1C2E");
    ("title", PyStr "Self-sealing valve");
    ("description", PyStr (patent_description formA));
    ("inventor", PyStr "Ada Park");
    ("patent_type", PyStr "Utility Patent");
    ("priority", PyStr "Normal");
    ("doc_hash",
       PyStr "5d2aa909155931b16dfeceee019ba661f94591b184e1f925c662f0f74f4a16e8");
    ("estimated_value", PyInt 10000);
    ("keywords", PyStr "valve, pressure");
    ("related_patents", PyStr "");
    ("collaboration", PyStr "");
    ("funding_source", PyStr "");
    ("is_on_blockchain", PyBool true);
    ("status", PyStr "Pending");
    ("verification_score", PyInt 100);
    ("created_by", PyStr "demo_user");
    ("file_name", PyNone);
    ("file_size", PyInt 0) ].

Definition merkleA : string :=
  "aa0f531a9759a09d4ac261b5395750385aca6aa721cb8806d2f83e12fa74dd7a".

Definition blockA : Block :=
  mkBlock 1 (now drawA) dataA genesis_hash 1
    "00a1f113a6b7e753ba9c77e2b710feda724fe8a4a475be65af4c5e8febbdcd04"
    merkleA.

(** What [Block(...)] builds for the later submission: the hash of the
    fields with [previous_hash] still empty already starts with two
    zeros. *)
Definition candidateA' : Block :=
  mkBlock 1 (now drawA') dataA "" 0
    "00f819de8a1685eef70d256eb22b87903460d380770786c702578977a993a6ff"
    merkleA.

Definition blockA' : Block := set_previous_hash candidateA' genesis_hash.

Definition formB : form :=
  mkForm "X" "Ben Ode" "Design Patent" "High" "On Blockchain" 2500 "Lamp"
    (Some ("lamp.txt", [108; 97; 109; 112])) "" "" "" "".

Definition drawB : draw :=
  mkDraw "PAT-10000007" (-5) "2024-03-15 10:30:17.100037" "demo_user".

Definition dataB : dict :=
  [ ("patent_id", PyStr "PAT-10000007");
    ("title", PyStr "X");
    ("description", PyStr "Lamp");
    ("inventor", PyStr "Ben Ode");
    ("patent_type", PyStr "Design Patent");
    ("priority", PyStr "High");
    ("doc_hash",
       PyStr "c98e85f249002f03068e2a61e1a1df5c0db035d6cdf41d00ff6056ed63060947");
    ("estimated_value", PyInt 2500);
    ("keywords", PyStr "");
    ("related_patents", PyStr "");
    ("collaboration", PyStr "");
    ("funding_source", PyStr "");
    ("is_on_blockchain", PyBool true);
    ("status", PyStr "Pending");
    ("verification_score", PyInt 65);
    ("created_by", PyStr "demo_user");
    ("file_name", PyStr "lamp.txt");
    ("file_size", PyInt 4) ].

Definition blockB : Block :=
  mkBlock 2 (now drawB) dataB (hash blockA) 2
    "004dae4f3ab7332f64e00b4cd098dfd6c67ff4fe81561b93cf0f4d83ca896d3b"
    "19ea6b94c446540cae0296841fc8229a2109b200497319009ffb647e4c3803cf".

(** The ledger after the submissions [formA] and [formB]. *)
Definition ledgerA : Blockchain := set_chain ledger [genesis; blockA].
Definition ledgerAB : Blockchain := set_chain ledger [genesis; blockA; blockB].

(** A block with no payload fields at all, and the block it is mined
    into. *)
Definition now_empty : string := "2024-03-15 10:30:09.100023".

Definition candidate_empty : Block := Block_init 1 now_empty [] "" 0.

Definition block_empty : Block :=
  mkBlock 1 now_empty [] genesis_hash 1
    "0093399570de48071f03e064d62ae6b98e2274b515884843820fd2a6502f8420"
    "44136fa355b3678a1146ad16f7e8649e94fb4fc21fe77e8310c060f61caaff8a".

(** A block linked to the genesis block and hashed, but never mined. *)
Definition block_unmined : Block :=
  Block_init 1 now_empty [("title", PyStr "X")] genesis_hash 0.

Definition ledger_unmined : Blockchain :=
  set_chain ledger [genesis; block_unmined].

End Sample.

(** A session of [python.py]: the initial state, one record put on the
    chain, one record kept off it. *)
Module PythonSample.

Definition start : PythonPy.session :=
  PythonPy.initialize_session_state "2024-03-15 10:30:00.000000".

Definition form_on : PythonPy.form :=
  PythonPy.mkForm "Self-sealing valve" "Utility Patent" "On Blockchain" ""
    None.

Definition form_off : PythonPy.form :=
  PythonPy.mkForm "Folding ladder" "Design Patent" "Off Blockchain"
    "A ladder that folds flat." None.

Definition after_one : PythonPy.session :=
  fst (PythonPy.submit "2024-03-15 10:30:05.000000" form_on start).

Definition after_two : PythonPy.session :=
  fst (PythonPy.submit "2024-03-15 10:30:09.000000" form_off after_one).

End PythonSample.

(** ** Proof steps used throughout *)

(** Split a conjunction into its parts, without touching the parts. *)
Ltac conjuncts := repeat match goal with |- _ /\ _ => split end.

(** Settle a closed equation by running both sides. *)
Ltac by_running := vm_compute; reflexivity.

(** Two closed texts differ: run the comparison. *)
Ltac texts_differ := apply String.eqb_neq; vm_compute; reflexivity.

(** * Properties *)

(** ** Text *)

Lemma length_append (a b : string) :
  String.length (a ++ b) = (String.length a + String.length b)%nat.
Proof. induction a as [|c a IH]; simpl; [reflexivity | now rewrite IH]. Qed.

Lemma append_assoc (a b c : string) : ((a ++ b) ++ c = a ++ (b ++ c))%string.
Proof. induction a as [|x a IH]; simpl; [reflexivity | now rewrite IH]. Qed.

Lemma append_inv_head (a b c : string) : (a ++ b = a ++ c)%string -> b = c.
Proof.
  induction a as [|x a IH]; simpl; intros H; [exact H|].
  injection H as H. now apply IH.
Qed.

Lemma append_inv_tail (a b c : string) : (a ++ c = b ++ c)%string -> a = b.
Proof.
  revert b. induction a as [|x a IH]; intros [|y b] H; simpl in H.
  - reflexivity.
  - apply (f_equal String.length) in H. simpl in H.
    rewrite length_append in H. lia.
  - apply (f_equal String.length) in H. simpl in H.
    rewrite length_append in H. lia.
  - injection H as -> H. f_equal. now apply IH.
Qed.

Lemma to_int_proper (z : Z) :
  Z.to_int z <> Decimal.Pos Decimal.Nil /\
  Z.to_int z <> Decimal.Neg Decimal.Nil.
Proof.
  destruct z as [|p|p]; unfold Z.to_int; split; try discriminate;
    intros E; injection E as E;
    now apply (DecimalPos.Unsigned.to_uint_nonnil p).
Qed.

Lemma str_int_inj (m n : Z) : str_int m = str_int n -> m = n.
Proof.
  unfold str_int. intros H.
  apply DecimalZ.to_int_inj.
  assert (E : NilZero.int_of_string (NilZero.string_of_int (Z.to_int m)) =
              NilZero.int_of_string (NilZero.string_of_int (Z.to_int n)))
    by now rewrite H.
  rewrite !NilZero.isi in E by apply to_int_proper.
  now injection E.
Qed.

(** ** The digest *)

Lemma hex8_length (w : Z) : String.length (SHA256.hex8 w) = 8%nat.
Proof. reflexivity. Qed.

Lemma hex_digit_hex (n : Z) : is_hex_char (SHA256.hex_digit n).
Proof.
  unfold is_hex_char, SHA256.hex_digit.
  destruct (Nat.lt_ge_cases (Z.to_nat n)
              (List.length (list_ascii_of_string "0123456789abcdef")))
    as [Hlt | Hge].
  - now apply nth_In.
  - rewrite nth_overflow by exact Hge. left. reflexivity.
Qed.

Lemma list_ascii_append (a b : string) :
  list_ascii_of_string (a ++ b) =
  (list_ascii_of_string a ++ list_ascii_of_string b)%list.
Proof. induction a as [|c a IH]; simpl; [reflexivity | now rewrite IH]. Qed.

Lemma hex8_hex (w : Z) : Forall is_hex_char (list_ascii_of_string (SHA256.hex8 w)).
Proof.
  unfold SHA256.hex8. cbn [list_ascii_of_string].
  repeat (apply Forall_cons; [apply hex_digit_hex|]). apply Forall_nil.
Qed.

Lemma hexdigest_hex64 (bs : list Z) : hex64 (SHA256.hexdigest bs).
Proof.
  unfold hex64, SHA256.hexdigest, SHA256.hex_of_state. split.
  - rewrite !length_append, !hex8_length. reflexivity.
  - rewrite !list_ascii_append.
    repeat (apply Forall_app; split); apply hex8_hex.
Qed.

Lemma sha256_hex_hex64 (s : string) : hex64 (sha256_hex s).
Proof. apply hexdigest_hex64. Qed.

(** The test vectors of FIPS 180-4: the empty message, one block, two
    blocks. *)
Example sha256_empty :
  sha256_hex "" =
  "e3b0c44298fc1c149afbf4c8996fb92427ae41e4649b934ca495991b7852b855".
Proof. by_running. Qed.

Example sha256_abc :
  sha256_hex "abc" =
  "ba7816bf8f01cfea414140de5dae2223b00361a396177a9cb410ff61f20015ad".
Proof. by_running. Qed.

Example sha256_two_blocks :
  sha256_hex "abcdbcdecdefdefgefghfghighijhijkijkljklmklmnlmnomnopnopq" =
  "248d6a61d20638b8e5c026930c3e6039a33ce45964ff2167f6ecedd419db06c1".
Proof. by_running. Qed.

(** The computed constants are the tabulated ones. *)
Example sha256_constants :
  List.length SHA256.K = 64%nat /\
  firstn 4 SHA256.K = [0x428a2f98; 0x71374491; 0xb5c0fbcf; 0xe9b5dba5] /\
  nth 63 SHA256.K 0 = 0xc67178f2 /\
  SHA256.sa SHA256.H0 = 0x6a09e667 /\
  SHA256.sh SHA256.H0 = 0x5be0cd19.
Proof. conjuncts; reflexivity. Qed.

(** ** Construction of the ledger *)

(** C1. [Blockchain()] of [main.py] never yields a ledger: [__init__]
    builds the genesis block, whose mining reads [self.difficulty], before
    the statement that assigns [self.difficulty]; the call raises
    [AttributeError] whatever the clock reads and however long mining
    could run. *)
Theorem Blockchain_init_raises (now : string) (fuel : nat) :
  Main.Blockchain_init now fuel = Raise (AttributeError "difficulty").
Proof. reflexivity. Qed.

(** With the difficulty assigned first, the same genesis creation does
    mine a block: the one of the sample session. *)
Lemma create_genesis_block_sample :
  Main.create_genesis_block Sample.now0 1
    (Main.set_difficulty Main.new_object 2) = Ok Sample.genesis.
Proof. by_running. Qed.

(** ** Mining *)

Lemma calculate_hash_set_hash (b : Main.Block) (h : string) :
  Main.calculate_hash (Main.set_hash b h) = Main.calculate_hash b.
Proof. reflexivity. Qed.

Lemma take_repeat_get (c : ascii) (n : nat) (h : string) :
  take n h = repeat_char c n ->
  forall k, (k < n)%nat -> String.get k h = Some c.
Proof.
  revert h. induction n as [|n IH]; intros h H k Hk; [lia|].
  destruct h as [|x h]; simpl in H; [discriminate|].
  injection H as -> H.
  destruct k as [|k]; simpl; [reflexivity|].
  apply IH; [exact H | lia].
Qed.

Lemma meets_target_zeros (h : string) (d : Z) :
  0 <= d -> Main.meets_target h d = true -> leading_zeros h d.
Proof.
  unfold Main.meets_target, slice_to, str_mul, leading_zeros.
  intros Hd H k Hk.
  apply String.eqb_eq in H.
  destruct (0 <=? d) eqn:E; [|apply Z.leb_gt in E; lia].
  now apply (take_repeat_get "0" (Z.to_nat d)).
Qed.

(** What a finished run of [mine_block] did: [k] turns of the loop, each
    adding one to the nonce and storing the hash of the fields; every
    earlier test of the target failed and the last one succeeded. *)
Lemma mine_block_run (fuel : nat) :
  forall (self b' : Main.Block) (d : Z),
    Main.mine_block fuel self d = Ok b' ->
    exists k : nat,
      (k <= fuel)%nat /\
      Main.nonce b' = Main.nonce self + Z.of_nat k /\
      Main.index b' = Main.index self /\
      Main.timestamp b' = Main.timestamp self /\
      Main.data b' = Main.data self /\
      Main.previous_hash b' = Main.previous_hash self /\
      Main.merkle_root b' = Main.merkle_root self /\
      Main.meets_target (Main.hash b') d = true /\
      (k = O -> b' = self) /\
      ((0 < k)%nat ->
         Main.hash b' = Main.calculate_hash b' /\
         Main.meets_target (Main.hash self) d = false) /\
      (forall j : nat, (0 < j < k)%nat ->
         Main.meets_target
           (Main.calculate_hash
              (Main.set_nonce self (Main.nonce self + Z.of_nat j))) d = false).
Proof.
  induction fuel as [|fuel IH]; intros self b' d H; simpl in H.
  - destruct (Main.meets_target (Main.hash self) d) eqn:E; [|discriminate].
    injection H as <-. exists O. rewrite Z.add_0_r.
    repeat split; auto; lia.
  - destruct (Main.meets_target (Main.hash self) d) eqn:E.
    + injection H as <-. exists O. rewrite Z.add_0_r.
      repeat split; auto; lia.
    + apply IH in H.
      destruct H as (k & Hk & Hn & Hi & Ht & Hd & Hp & Hm & Hz & H0 & Hpos & Hj).
      exists (S k). cbn in Hn, Hi, Ht, Hd, Hp, Hm.
      repeat split; auto; try lia.
      * destruct k as [|k].
        -- rewrite (H0 eq_refl). reflexivity.
        -- apply Hpos. lia.
      * intros j Hjk. destruct j as [|[|j]]; [lia | |].
        -- destruct k as [|k]; [lia|].
           destruct (Hpos ltac:(lia)) as [_ Hf]. exact Hf.
        -- specialize (Hj (S j) ltac:(lia)).
           cbn [Main.set_nonce Main.set_hash Main.nonce Main.index
                Main.timestamp Main.data Main.previous_hash Main.hash
                Main.merkle_root] in Hj.
           replace (Main.nonce self + Z.of_nat (S (S j)))
             with (Main.nonce self + 1 + Z.of_nat (S j)) by lia.
           exact Hj.
Qed.

(** More fuel never changes what a finished run returned. *)
Lemma mine_block_fuel_mono (fuel : nat) :
  forall (self b' : Main.Block) (d : Z) (extra : nat),
    Main.mine_block fuel self d = Ok b' ->
    Main.mine_block (fuel + extra) self d = Ok b'.
Proof.
  induction fuel as [|fuel IH]; intros self b' d extra H; simpl in H.
  - destruct (Main.meets_target (Main.hash self) d) eqn:E; [|discriminate].
    destruct extra; simpl; now rewrite E.
  - simpl. destruct (Main.meets_target (Main.hash self) d) eqn:E;
      [exact H | now apply IH].
Qed.

(** C7 (as amended). Whenever [mine_block] returns for a difficulty
    [d >= 0], the stored hash starts with [d] zeros; it is the hash of the
    block's current fields provided the stored hash was so when mining
    started or the nonce moved; the nonce is the starting nonce plus the
    number [k] of turns taken, every test before the last one failed, and
    no other field changed. *)
Theorem mine_block_seals (fuel : nat) (self b' : Main.Block) (d : Z) :
  0 <= d ->
  Main.mine_block fuel self d = Ok b' ->
  leading_zeros (Main.hash b') d /\
  (Main.hash self = Main.calculate_hash self \/
   Main.nonce b' <> Main.nonce self ->
   Main.hash b' = Main.calculate_hash b') /\
  exists k : nat,
    Main.nonce b' = Main.nonce self + Z.of_nat k /\
    ((0 < k)%nat -> Main.meets_target (Main.hash self) d = false) /\
    (forall j : nat, (0 < j < k)%nat ->
       Main.meets_target
         (Main.calculate_hash
            (Main.set_nonce self (Main.nonce self + Z.of_nat j))) d = false) /\
    Main.index b' = Main.index self /\
    Main.timestamp b' = Main.timestamp self /\
    Main.data b' = Main.data self /\
    Main.previous_hash b' = Main.previous_hash self.
Proof.
  intros Hd H.
  destruct (mine_block_run fuel self b' d H)
    as (k & _ & Hn & Hi & Ht & Hda & Hp & _ & Hm & H0 & Hpos & Hj).
  split; [now apply meets_target_zeros|].
  split.
  - intros Hc. destruct k as [|k].
    + rewrite (H0 eq_refl). destruct Hc as [Hc | Hc]; [exact Hc|].
      exfalso. apply Hc. rewrite Hn. simpl. lia.
    + apply Hpos. lia.
  - exists k. repeat split; auto. intros Hk. now apply Hpos.
Qed.

(** The mining of the sample genesis block: one turn of the loop. *)
Lemma mine_block_seals_witness :
  0 <= 2 /\
  Main.mine_block 1 (Main.Block_init 0 Sample.now0 Main.genesis_data "0" 0) 2
    = Ok Sample.genesis /\
  leading_zeros (Main.hash Sample.genesis) 2.
Proof.
  assert (H : Main.mine_block 1
                (Main.Block_init 0 Sample.now0 Main.genesis_data "0" 0) 2
              = Ok Sample.genesis) by (by_running).
  split; [lia|]. split; [exact H|].
  exact (proj1 (mine_block_seals 1 _ _ 2 ltac:(lia) H)).
Defined.

(** C7 as stated fails: mining a block whose stored hash already starts
    with the zeros returns at once, whether or not that hash is the hash
    of the fields. *)
Lemma mine_block_keeps_stale_hash :
  Main.mine_block 1000 Sample.blockA' 2 = Ok Sample.blockA' /\
  Main.hash Sample.blockA' <> Main.calculate_hash Sample.blockA'.
Proof.
  split; [reflexivity|].
  texts_differ.
Qed.

(** ** The authenticity score *)

Lemma text_field_default (record : dict) (k s : string) :
  text_field record k s -> dict_get_default record k (PyStr "") = PyStr s.
Proof.
  unfold text_field, dict_get_default.
  intros [-> | [-> ->]]; reflexivity.
Qed.

Lemma text_field_truthy (record : dict) (k s : string) :
  text_field record k s ->
  truthy (dict_get_default record k PyNone) = negb (String.eqb s "").
Proof.
  unfold text_field, dict_get_default.
  intros [-> | [-> ->]]; reflexivity.
Qed.

Lemma verify_patent_authenticity_eq (record : dict) (t d h : string) (r : Z) :
  text_field record "title" t ->
  text_field record "description" d ->
  text_field record "doc_hash" h ->
  Main.verify_patent_authenticity r record = Ok (score_spec t d h r).
Proof.
  intros Ht Hd Hh. unfold Main.verify_patent_authenticity.
  rewrite (text_field_default _ _ _ Ht), (text_field_default _ _ _ Hd),
    (text_field_truthy _ _ _ Hh).
  unfold Main.len, bind, score_spec, clamp.
  destruct (py_len t >? 10), (py_len d >? 50), (String.eqb h "");
    simpl; f_equal; f_equal; f_equal; lia.
Qed.

(** C8. For every record whose title, description and document hash are
    text of any length, and every random term in [-5, 15], the score is
    an integer in [0, 100]: 50, plus 10 for a title longer than 10, plus
    15 for a description longer than 50, plus 20 for a non-empty document
    hash, plus the random term, clamped to [0, 100]; with lengths 11 and
    60, a document hash and the term +5 it is exactly 100. *)
Theorem score_in_range (record : dict) (t d h : string) (r : Z) :
  text_field record "title" t ->
  text_field record "description" d ->
  text_field record "doc_hash" h ->
  -5 <= r <= 15 ->
  exists s : Z,
    Main.verify_patent_authenticity r record = Ok s /\
    0 <= s <= 100 /\
    s = clamp 0 100
          (50 + (if py_len t >? 10 then 10 else 0)
              + (if py_len d >? 50 then 15 else 0)
              + (if String.eqb h "" then 0 else 20) + r) /\
    (py_len t = 11 -> py_len d = 60 -> h <> "" -> r = 5 -> s = 100).
Proof.
  intros Ht Hd Hh Hr. exists (score_spec t d h r).
  split; [now apply verify_patent_authenticity_eq|].
  split; [unfold score_spec, clamp; lia|].
  split; [reflexivity|].
  intros Lt Ld Hne ->. unfold score_spec, clamp. rewrite Lt, Ld.
  apply String.eqb_neq in Hne. rewrite Hne. reflexivity.
Qed.

(** The record of the specification's example scores 100. *)
Lemma score_in_range_witness :
  -5 <= 5 <= 15 /\
  Main.verify_patent_authenticity 5
    [ ("title", PyStr "Hello world");
      ("description",
       PyStr "012345678901234567890123456789012345678901234567890123456789");
      ("doc_hash", PyStr "abc") ] = Ok 100.
Proof.
  split; [lia|].
  destruct (score_in_range
              [ ("title", PyStr "Hello world");
                ("description",
                 PyStr "012345678901234567890123456789012345678901234567890123456789");
                ("doc_hash", PyStr "abc") ]
              "Hello world"
              "012345678901234567890123456789012345678901234567890123456789"
              "abc" 5
              (or_introl eq_refl) (or_introl eq_refl) (or_introl eq_refl)
              ltac:(lia))
    as (s & Hs & _ & _ & H100).
  rewrite Hs. f_equal. apply H100; [reflexivity | reflexivity | discriminate | reflexivity].
Defined.

(** C10. The score is at least 45: the random term is at least -5 and the
    bonuses are not negative, so the lower clamp never acts and the score
    is the smaller of 100 and the unclamped sum. *)
Theorem score_at_least_45 (record : dict) (t d h : string) (r : Z) :
  text_field record "title" t ->
  text_field record "description" d ->
  text_field record "doc_hash" h ->
  -5 <= r <= 15 ->
  exists s : Z,
    Main.verify_patent_authenticity r record = Ok s /\
    45 <= s <= 100 /\
    let raw := 50 + (if py_len t >? 10 then 10 else 0)
                  + (if py_len d >? 50 then 15 else 0)
                  + (if String.eqb h "" then 0 else 20) + r in
    Z.max 0 raw = raw /\ s = Z.min 100 raw.
Proof.
  intros Ht Hd Hh Hr. exists (score_spec t d h r).
  split; [now apply verify_patent_authenticity_eq|].
  unfold score_spec, clamp. cbv zeta.
  destruct (py_len t >? 10), (py_len d >? 50), (String.eqb h "");
    repeat split; lia.
Qed.

(** The empty record with the least random term. *)
Lemma score_at_least_45_witness :
  -5 <= -5 <= 15 /\
  exists s : Z,
    Main.verify_patent_authenticity (-5) [] = Ok s /\ 45 <= s <= 100.
Proof.
  split; [lia|].
  destruct (score_at_least_45 [] "" "" "" (-5)
              (or_intror (conj eq_refl eq_refl))
              (or_intror (conj eq_refl eq_refl))
              (or_intror (conj eq_refl eq_refl)) ltac:(lia))
    as (s & Hs & Hr & _).
  exists s. split; [exact Hs | exact Hr].
Defined.

(** ** Validation of the chain *)

Lemma item_nth_error {A : Type} (l : list A) (i : nat) :
  (i < List.length l)%nat ->
  exists a, nth_error l i = Some a /\ item l i = Ok a.
Proof.
  intros H. unfold item.
  destruct (nth_error l i) as [a|] eqn:E.
  - exists a. now split.
  - apply nth_error_None in E. lia.
Qed.

Lemma is_chain_valid_loop_spec (c : list Main.Block) (range : list nat) :
  (forall i, In i range -> (1 <= i < List.length c)%nat) ->
  exists v : bool,
    Main.is_chain_valid_loop c range = Ok v /\
    (v = true <-> forall i, In i range -> link_ok c i).
Proof.
  induction range as [|i rest IH]; intros Hr.
  - exists true. split; [reflexivity|]. split; [intros _ i []|reflexivity].
  - destruct (item_nth_error c i) as (cur & Ecur & Icur);
      [apply (Hr i); now left; lia|].
    destruct (item_nth_error c (i - 1)) as (prev & Eprev & Iprev);
      [specialize (Hr i (or_introl eq_refl)); lia|].
    destruct IH as (v & Hv & Hiff); [intros j Hj; apply Hr; now right|].
    simpl. rewrite Icur, Iprev. simpl.
    destruct (String.eqb (Main.hash cur) (Main.calculate_hash cur)) eqn:E1;
      simpl.
    + destruct (String.eqb (Main.previous_hash cur) (Main.hash prev)) eqn:E2;
        simpl.
      * exists v. split; [exact Hv|].
        rewrite Hiff. split.
        -- intros H j [<- | Hj]; [|now apply H].
           exists cur, prev. apply String.eqb_eq in E1, E2. now repeat split.
        -- intros H j Hj. apply H. now right.
      * exists false. split; [reflexivity|]. split; [discriminate|].
        intros H. destruct (H i (or_introl eq_refl))
          as (cur' & prev' & E1' & E2' & _ & Hl).
        rewrite Ecur in E1'. rewrite Eprev in E2'.
        injection E1' as <-. injection E2' as <-.
        apply String.eqb_neq in E2. contradiction.
    + exists false. split; [reflexivity|]. split; [discriminate|].
      intros H. destruct (H i (or_introl eq_refl))
        as (cur' & prev' & E1' & _ & Hh & _).
      rewrite Ecur in E1'. injection E1' as <-.
      apply String.eqb_neq in E1. contradiction.
Qed.

Lemma is_chain_valid_spec (self : Main.Blockchain) (c : list Main.Block) :
  Main.chain self = Some c ->
  exists v : bool,
    Main.is_chain_valid self = Ok v /\
    (v = true <-> forall i, (1 <= i < List.length c)%nat -> link_ok c i).
Proof.
  intros Hc. unfold Main.is_chain_valid. rewrite Hc. simpl.
  destruct (is_chain_valid_loop_spec c (seq 1 (List.length c - 1)))
    as (v & Hv & Hiff).
  - intros i Hi. apply in_seq in Hi. lia.
  - exists v. split; [exact Hv|]. rewrite Hiff. split.
    + intros H i Hi. apply H. apply in_seq. lia.
    + intros H i Hi. apply H. apply in_seq in Hi. lia.
Qed.

Lemma is_chain_valid_true_iff (self : Main.Blockchain) (c : list Main.Block) :
  Main.chain self = Some c ->
  (Main.is_chain_valid self = Ok true <->
   forall i, (1 <= i < List.length c)%nat -> link_ok c i).
Proof.
  intros Hc. destruct (is_chain_valid_spec self c Hc) as (v & Hv & Hiff).
  rewrite Hv, <- Hiff. split; [now intros [= ->] | now intros ->].
Qed.

Lemma is_chain_valid_false_iff (self : Main.Blockchain) (c : list Main.Block) :
  Main.chain self = Some c ->
  (Main.is_chain_valid self = Ok false <->
   ~ forall i, (1 <= i < List.length c)%nat -> link_ok c i).
Proof.
  intros Hc. destruct (is_chain_valid_spec self c Hc) as (v & Hv & Hiff).
  rewrite Hv. destruct v.
  - split; [discriminate|]. intros H. exfalso. apply H. now apply Hiff.
  - split; [|reflexivity]. intros _ H. apply Hiff in H. discriminate.
Qed.

(** C6. [is_chain_valid] returns, and returns true exactly when every
    block from index 1 onward stores the hash of its own fields and the
    stored hash of the block before it; a chain of zero or one block is
    valid; the difficulty plays no part, and a chain holding a block whose
    hash lacks the two leading zeros of difficulty 2 is valid. *)
Theorem is_chain_valid_iff (self : Main.Blockchain) (c : list Main.Block) :
  Main.chain self = Some c ->
  (exists v : bool, Main.is_chain_valid self = Ok v) /\
  (Main.is_chain_valid self = Ok true <->
   forall i, (1 <= i < List.length c)%nat -> link_ok c i) /\
  ((List.length c <= 1)%nat -> Main.is_chain_valid self = Ok true) /\
  (forall d : Z,
     Main.is_chain_valid (Main.set_difficulty self d) =
     Main.is_chain_valid self) /\
  (Main.difficulty Sample.ledger_unmined = Some 2 /\
   In Sample.block_unmined [Sample.genesis; Sample.block_unmined] /\
   Main.meets_target (Main.hash Sample.block_unmined) 2 = false /\
   Main.is_chain_valid Sample.ledger_unmined = Ok true).
Proof.
  intros Hc. split; [|split; [|split; [|split]]].
  - destruct (is_chain_valid_spec self c Hc) as (v & Hv & _). now exists v.
  - now apply is_chain_valid_true_iff.
  - intros Hl. apply (is_chain_valid_true_iff self c Hc). intros i Hi. lia.
  - intros d. reflexivity.
  - split; [reflexivity|]. split; [right; now left|].
    split; by_running.
Qed.

(** The sample chain of three blocks validates, so its last link holds. *)
Lemma is_chain_valid_iff_witness :
  Main.chain Sample.ledgerAB =
    Some [Sample.genesis; Sample.blockA; Sample.blockB] /\
  Main.is_chain_valid Sample.ledgerAB = Ok true /\
  link_ok [Sample.genesis; Sample.blockA; Sample.blockB] 2.
Proof.
  assert (Hv : Main.is_chain_valid Sample.ledgerAB = Ok true)
    by (by_running).
  split; [reflexivity|]. split; [exact Hv|].
  destruct (is_chain_valid_iff Sample.ledgerAB _ eq_refl) as (_ & Hiff & _).
  apply (proj1 Hiff Hv). simpl. lia.
Defined.

(** ** Tampering *)

Lemma nth_error_replace_at_same {A : Type} (l : list A) (i : nat) (x : A) :
  (i < List.length l)%nat -> nth_error (replace_at l i x) i = Some x.
Proof.
  revert i. induction l as [|a l IH]; intros [|i] H; simpl in *; try lia.
  - reflexivity.
  - apply IH. lia.
Qed.

Lemma nth_error_replace_at_other {A : Type} (l : list A) (i j : nat) (x : A) :
  i <> j -> nth_error (replace_at l i x) j = nth_error l j.
Proof.
  revert i j. induction l as [|a l IH]; intros [|i] [|j] H; simpl;
    try reflexivity; try lia.
  apply IH. lia.
Qed.

Lemma length_replace_at {A : Type} (l : list A) (i : nat) (x : A) :
  List.length (replace_at l i x) = List.length l.
Proof.
  revert i. induction l as [|a l IH]; intros [|i]; simpl; try reflexivity.
  now rewrite IH.
Qed.

(** A mutation of one field changes the text that is hashed. *)
Lemma mutation_changes_text (b b' : Main.Block) :
  mutation b b' -> Main.block_string b' <> Main.block_string b.
Proof.
  intros [i Hi | t Ht | d Hd | p Hp | n Hn]; unfold Main.block_string;
    cbn [Main.index Main.timestamp Main.data Main.previous_hash Main.nonce
         Main.set_previous_hash Main.set_nonce]; intros E.
  - apply append_inv_tail in E. apply str_int_inj in E. contradiction.
  - apply append_inv_head in E. apply append_inv_tail in E. contradiction.
  - do 2 apply append_inv_head in E. apply append_inv_tail in E.
    contradiction.
  - do 3 apply append_inv_head in E. apply append_inv_tail in E.
    contradiction.
  - do 4 apply append_inv_head in E. apply str_int_inj in E. contradiction.
Qed.

Lemma mutation_keeps_hash (b b' : Main.Block) :
  mutation b b' -> Main.hash b' = Main.hash b.
Proof. intros []; reflexivity. Qed.

(** A block at position 1 or later whose stored hash is no longer the
    hash of its fields, or whose [previous_hash] no longer is the stored
    hash before it, makes a valid chain invalid. *)
Lemma stale_block_detected (self : Main.Blockchain) (c : list Main.Block)
    (i : nat) (b b' : Main.Block) :
  Main.chain self = Some c ->
  Main.is_chain_valid self = Ok true ->
  (1 <= i)%nat ->
  nth_error c i = Some b ->
  Main.hash b' = Main.hash b ->
  Main.calculate_hash b' <> Main.calculate_hash b \/
  Main.previous_hash b' <> Main.previous_hash b ->
  Main.is_chain_valid (Main.set_chain self (replace_at c i b')) = Ok false.
Proof.
  intros Hc Hv Hi Hb Hh Hneq.
  assert (Hlen : (i < List.length c)%nat)
    by (apply nth_error_Some; congruence).
  apply (is_chain_valid_false_iff
           (Main.set_chain self (replace_at c i b')) (replace_at c i b')
           eq_refl).
  intros Hall.
  destruct (Hall i) as (cur & prev & Ecur & Eprev & Hcur & Hprev);
    [rewrite length_replace_at; lia|].
  rewrite nth_error_replace_at_same in Ecur by exact Hlen.
  injection Ecur as <-.
  rewrite nth_error_replace_at_other in Eprev by lia.
  destruct (proj1 (is_chain_valid_true_iff self c Hc) Hv i ltac:(lia))
    as (cur0 & prev0 & Ecur0 & Eprev0 & Hcur0 & Hprev0).
  rewrite Hb in Ecur0. injection Ecur0 as <-.
  rewrite Eprev in Eprev0. injection Eprev0 as <-.
  destruct Hneq as [Hneq | Hneq]; apply Hneq; congruence.
Qed.

(** C2 (as amended). In a valid chain, assigning a different value to the
    index, timestamp, [previous_hash] or nonce of a block at position 1 or
    later, or a payload with a different canonical serialization, without
    recomputing the stored hash, changes the text that is hashed;
    [is_chain_valid] then returns false, unless SHA-256 gives the old and
    the new text one digest and the field is not [previous_hash]. *)
Theorem tamper_detected (self : Main.Blockchain) (c : list Main.Block)
    (i : nat) (b b' : Main.Block) :
  Main.chain self = Some c ->
  Main.is_chain_valid self = Ok true ->
  (1 <= i)%nat ->
  nth_error c i = Some b ->
  mutation b b' ->
  Main.block_string b' <> Main.block_string b /\
  (sha256_hex (Main.block_string b') <> sha256_hex (Main.block_string b) \/
   Main.previous_hash b' <> Main.previous_hash b ->
   Main.is_chain_valid (Main.set_chain self (replace_at c i b')) = Ok false).
Proof.
  intros Hc Hv Hi Hb Hm. split; [now apply mutation_changes_text|].
  intros Hneq.
  apply (stale_block_detected self c i b b' Hc Hv Hi Hb);
    [now apply mutation_keeps_hash | exact Hneq].
Qed.

(** A changed nonce in block 1 of the sample chain is detected. *)
Lemma tamper_detected_witness :
  Main.is_chain_valid Sample.ledgerAB = Ok true /\
  mutation Sample.blockA (Main.set_nonce Sample.blockA 7) /\
  Main.is_chain_valid
    (Main.set_chain Sample.ledgerAB
       (replace_at [Sample.genesis; Sample.blockA; Sample.blockB] 1
          (Main.set_nonce Sample.blockA 7))) = Ok false.
Proof.
  assert (Hv : Main.is_chain_valid Sample.ledgerAB = Ok true)
    by (by_running).
  assert (Hm : mutation Sample.blockA (Main.set_nonce Sample.blockA 7))
    by (apply mutate_nonce; discriminate).
  split; [exact Hv|]. split; [exact Hm|].
  apply (proj2 (tamper_detected Sample.ledgerAB _ 1 Sample.blockA _
                  eq_refl Hv (le_n 1) eq_refl Hm)).
  left. texts_differ.
Defined.

(** C2 as stated fails for the genesis block: validation starts at index
    1, so whichever field of block 0 is assigned a new value, the chain
    still validates. *)
Lemma genesis_tamper_undetected :
  Main.is_chain_valid Sample.ledgerA = Ok true /\
  let g := Sample.genesis in
  let tampered (g' : Main.Block) :=
    Main.is_chain_valid (Main.set_chain Sample.ledgerA [g'; Sample.blockA]) in
  mutation g (Main.set_nonce g 99) /\
  tampered (Main.set_nonce g 99) = Ok true /\
  tampered (Main.mkBlock 5 (Main.timestamp g) (Main.data g)
              (Main.previous_hash g) (Main.nonce g) (Main.hash g)
              (Main.merkle_root g)) = Ok true /\
  tampered (Main.mkBlock (Main.index g) "1999-01-01 00:00:00" (Main.data g)
              (Main.previous_hash g) (Main.nonce g) (Main.hash g)
              (Main.merkle_root g)) = Ok true /\
  tampered (Main.mkBlock (Main.index g) (Main.timestamp g) []
              (Main.previous_hash g) (Main.nonce g) (Main.hash g)
              (Main.merkle_root g)) = Ok true /\
  tampered (Main.set_previous_hash g "ff") = Ok true.
Proof.
  split; [by_running|]. cbv zeta.
  split; [apply mutate_nonce; discriminate|].
  conjuncts; by_running.
Qed.

(** ** Appending *)

Lemma last_item_snoc {A : Type} (l : list A) (a : A) :
  last_item (l ++ [a]) = Ok a.
Proof.
  unfold last_item, item.
  destruct (l ++ [a]) as [|x r] eqn:E; [now destruct l|].
  rewrite <- E. rewrite length_app. simpl.
  replace (List.length l + 1 - 1)%nat with (List.length l) by lia.
  rewrite nth_error_app2 by lia. now rewrite Nat.sub_diag.
Qed.

(** [add_block] is relinking, then mining, then appending: nothing else
    decides its outcome. *)
Lemma add_block_spec (fuel : nat) (self : Main.Blockchain)
    (c : list Main.Block) (latest new_block mined : Main.Block) (d : Z) :
  Main.chain self = Some (c ++ [latest]) ->
  Main.difficulty self = Some d ->
  Main.mine_block fuel (Main.set_previous_hash new_block (Main.hash latest)) d
    = Ok mined ->
  Main.add_block fuel self new_block =
    Ok (Main.set_chain self ((c ++ [latest]) ++ [mined])) /\
  Main.previous_hash mined = Main.hash latest /\
  List.length ((c ++ [latest]) ++ [mined]) = S (List.length (c ++ [latest])).
Proof.
  intros Hc Hd Hm. split; [|split].
  - unfold Main.add_block, Main.get_latest_block.
    rewrite Hc, Hd. simpl. rewrite last_item_snoc. simpl.
    rewrite Hm. reflexivity.
  - destruct (mine_block_run _ _ _ _ Hm) as (k & _ & _ & _ & _ & _ & Hp & _).
    exact Hp.
  - rewrite (length_app (c ++ [latest])). simpl. lia.
Qed.

Lemma link_ok_app (c : list Main.Block) (b : Main.Block) (i : nat) :
  (i < List.length c)%nat -> link_ok c i -> link_ok (c ++ [b]) i.
Proof.
  intros Hi (cur & prev & E1 & E2 & H1 & H2). exists cur, prev.
  rewrite !nth_error_app1 by lia. now repeat split.
Qed.

(** Appending keeps a valid chain valid when the appended block stores
    the hash of its own fields. *)
Lemma add_block_keeps_valid (fuel : nat) (self : Main.Blockchain)
    (c : list Main.Block) (latest new_block mined : Main.Block) (d : Z) :
  Main.chain self = Some (c ++ [latest]) ->
  Main.difficulty self = Some d ->
  Main.is_chain_valid self = Ok true ->
  Main.mine_block fuel (Main.set_previous_hash new_block (Main.hash latest)) d
    = Ok mined ->
  Main.hash mined = Main.calculate_hash mined ->
  Main.is_chain_valid (Main.set_chain self ((c ++ [latest]) ++ [mined]))
    = Ok true.
Proof.
  intros Hc Hd Hv Hm Hh.
  apply (is_chain_valid_true_iff
           (Main.set_chain self ((c ++ [latest]) ++ [mined])) _ eq_refl).
  intros i Hi. rewrite (length_app (c ++ [latest])) in Hi. simpl in Hi.
  destruct (Nat.eq_dec i (List.length (c ++ [latest]))) as [-> | Hne].
  - exists mined, latest.
    rewrite nth_error_app2 by lia. rewrite Nat.sub_diag. simpl.
    split; [reflexivity|]. split.
    + rewrite nth_error_app1 by (rewrite length_app; simpl; lia).
      rewrite length_app. simpl.
      replace (List.length c + 1 - 1)%nat with (List.length c) by lia.
      rewrite nth_error_app2 by lia. now rewrite Nat.sub_diag.
    + split; [exact Hh|].
      destruct (mine_block_run _ _ _ _ Hm) as (k & _ & _ & _ & _ & _ & Hp & _).
      exact Hp.
  - apply link_ok_app; [lia|].
    apply (proj1 (is_chain_valid_true_iff self _ Hc) Hv). lia.
Qed.

(** C5, evaluated where it fails. The submission [formA] at the clock
    reading of [drawA'] builds a block whose first hash, taken with
    [previous_hash] still empty, already starts with two zeros;
    [add_block] relinks the block and mines it, mining returns at once,
    and the appended block keeps the hash of the old fields: the chain,
    valid before, no longer validates. *)
Theorem add_block_stale_hash_invalid :
  Main.is_chain_valid Sample.ledger = Ok true /\
  Main.Block_init 1 (Main.now Sample.drawA') Sample.dataA "" 0
    = Sample.candidateA' /\
  Main.add_block 1000 Sample.ledger Sample.candidateA'
    = Ok (Main.set_chain Sample.ledger [Sample.genesis; Sample.blockA']) /\
  Main.submit 1000 Sample.drawA' Sample.formA (Main.mkSession Sample.ledger [])
    = Ok (Main.mkSession
            (Main.set_chain Sample.ledger [Sample.genesis; Sample.blockA'])
            []) /\
  Main.previous_hash Sample.blockA' = Main.hash Sample.genesis /\
  Main.hash Sample.blockA' <> Main.calculate_hash Sample.blockA' /\
  Main.is_chain_valid
    (Main.set_chain Sample.ledger [Sample.genesis; Sample.blockA'])
    = Ok false.
Proof.
  split; [by_running|].
  split; [by_running|].
  split; [by_running|].
  split; [by_running|].
  split; [reflexivity|].
  split; [texts_differ|].
  by_running.
Qed.

(** The scenario of two appends: the submissions [formA] and [formB]
    leave a chain of three blocks that validates. *)
Lemma two_appends_sample :
  Main.submit 1 Sample.drawA Sample.formA (Main.mkSession Sample.ledger [])
    = Ok (Main.mkSession Sample.ledgerA []) /\
  Main.submit 2 Sample.drawB Sample.formB (Main.mkSession Sample.ledgerA [])
    = Ok (Main.mkSession Sample.ledgerAB []) /\
  Main.chain Sample.ledgerAB
    = Some [Sample.genesis; Sample.blockA; Sample.blockB] /\
  Main.is_chain_valid Sample.ledgerAB = Ok true.
Proof.
  split; [by_running|].
  split; [by_running|].
  split; [reflexivity|].
  by_running.
Qed.

(** ** Validation of records *)

Lemma all_three_false (t i d : string) :
  t = "" \/ i = "" \/ d = "" -> Main.all [PyStr t; PyStr i; PyStr d] = false.
Proof.
  intros [-> | [-> | ->]]; unfold Main.all; simpl.
  - reflexivity.
  - now rewrite andb_false_r.
  - now rewrite !andb_false_r.
Qed.

(** C3 (as amended). The submit form rejects a record whose title,
    inventor or description is empty before any block is built: the
    session, ledger included, is left as it was. [add_block] itself looks
    at no field of the payload: on a ledger with a latest block and a
    difficulty, it appends whatever mining returns. *)
Theorem submit_rejects_missing_field (fuel : nat) (d : Main.draw)
    (f : Main.form) (st : Main.session) :
  Main.patent_title f = "" \/ Main.inventor_name f = "" \/
  Main.patent_description f = "" ->
  Main.submit fuel d f st = Ok st /\
  (forall (self : Main.Blockchain) (c : list Main.Block)
          (latest new_block mined : Main.Block) (dd : Z),
     Main.chain self = Some (c ++ [latest]) ->
     Main.difficulty self = Some dd ->
     Main.mine_block fuel
       (Main.set_previous_hash new_block (Main.hash latest)) dd = Ok mined ->
     Main.add_block fuel self new_block =
       Ok (Main.set_chain self ((c ++ [latest]) ++ [mined]))).
Proof.
  intros H. split.
  - unfold Main.submit. rewrite (all_three_false _ _ _ H). reflexivity.
  - intros self c latest new_block mined dd Hc Hd Hm.
    exact (proj1 (add_block_spec fuel self c latest new_block mined dd
                    Hc Hd Hm)).
Qed.

(** A form without an inventor leaves the sample session as it was. *)
Lemma submit_rejects_missing_field_witness :
  Main.inventor_name
    (Main.mkForm "Self-sealing valve" "" "Utility Patent" "Normal"
       "On Blockchain" 10000 "A valve." None "" "" "" "") = "" /\
  Main.submit 5 Sample.drawA
    (Main.mkForm "Self-sealing valve" "" "Utility Patent" "Normal"
       "On Blockchain" 10000 "A valve." None "" "" "" "")
    (Main.mkSession Sample.ledger []) = Ok (Main.mkSession Sample.ledger []).
Proof.
  split; [reflexivity|].
  exact (proj1 (submit_rejects_missing_field 5 Sample.drawA
                  (Main.mkForm "Self-sealing valve" "" "Utility Patent"
                     "Normal" "On Blockchain" 10000 "A valve." None
                     "" "" "" "")
                  (Main.mkSession Sample.ledger [])
                  (or_intror (or_introl eq_refl)))).
Defined.

(** C3 as stated fails: [add_block] takes a block whose payload has no
    title, no description and no inventor, mines it and appends it. *)
Lemma add_block_accepts_empty_record :
  dict_get (Main.data Sample.candidate_empty) "title" = None /\
  dict_get (Main.data Sample.candidate_empty) "description" = None /\
  dict_get (Main.data Sample.candidate_empty) "inventor" = None /\
  Main.add_block 1 Sample.ledger Sample.candidate_empty
    = Ok (Main.set_chain Sample.ledger [Sample.genesis; Sample.block_empty]).
Proof.
  conjuncts; by_running.
Qed.

(** ** The canonical serialization *)

Lemma string_compare_le_trans (s : string) :
  forall t u : string,
    String.compare s t <> Gt -> String.compare t u <> Gt ->
    String.compare s u <> Gt.
Proof.
  induction s as [|a s IH]; intros [|b t] [|c u]; simpl; try congruence.
  unfold Ascii.compare.
  destruct (N.compare_spec (N_of_ascii a) (N_of_ascii b)),
           (N.compare_spec (N_of_ascii b) (N_of_ascii c)),
           (N.compare_spec (N_of_ascii a) (N_of_ascii c));
    try congruence; try lia.
  apply IH.
Qed.

Lemma leb_compare (s t : string) :
  String.leb s t = true <-> String.compare s t <> Gt.
Proof.
  unfold String.leb. destruct (String.compare s t); split; congruence.
Qed.

Lemma leb_trans (s t u : string) :
  String.leb s t = true -> String.leb t u = true -> String.leb s u = true.
Proof. rewrite !leb_compare. apply string_compare_le_trans. Qed.

Lemma insert_item_perm (x : string * pyval) (l : dict) :
  Permutation (insert_item x l) (x :: l).
Proof.
  induction l as [|a l IH]; simpl; [reflexivity|].
  destruct (String.leb (fst x) (fst a)); [reflexivity|].
  rewrite IH. apply perm_swap.
Qed.

Lemma sort_items_perm (d : dict) : Permutation (sort_items d) d.
Proof.
  induction d as [|a d IH]; simpl; [reflexivity|].
  rewrite insert_item_perm. now apply perm_skip.
Qed.

Lemma insert_item_sorted (x : string * pyval) (l : dict) :
  StronglySorted key_le l -> StronglySorted key_le (insert_item x l).
Proof.
  induction l as [|a l IH]; intros Hs; simpl.
  - constructor; constructor.
  - inversion Hs as [|a' l' Hl Ha]; subst.
    destruct (String.leb (fst x) (fst a)) eqn:E.
    + constructor; [exact Hs|]. constructor; [exact E|].
      eapply Forall_impl; [|exact Ha].
      intros y Hy. unfold key_le in *. eapply leb_trans; eassumption.
    + constructor; [now apply IH|].
      apply (Permutation_Forall
               (Permutation_sym (insert_item_perm x l))).
      constructor; [|exact Ha].
      unfold key_le. destruct (String.leb_total (fst x) (fst a)); congruence.
Qed.

Lemma sort_items_sorted (d : dict) : StronglySorted key_le (sort_items d).
Proof.
  induction d as [|a d IH]; simpl; [constructor|].
  now apply insert_item_sorted.
Qed.

Lemma key_le_head (a b : string * pyval) (l : dict) :
  StronglySorted key_le (a :: l) -> In b (a :: l) -> key_le a b.
Proof.
  intros Hs [<- | Hb].
  - unfold key_le. destruct (String.leb_total (fst a) (fst a)); assumption.
  - inversion Hs as [|a' l' _ Ha]; subst.
    rewrite Forall_forall in Ha. now apply Ha.
Qed.

(** Two sorted lists with the same items, each key once, are equal. *)
Lemma sorted_items_unique (l1 : dict) :
  forall l2 : dict,
    StronglySorted key_le l1 -> StronglySorted key_le l2 ->
    Permutation l1 l2 -> NoDup (map fst l1) -> l1 = l2.
Proof.
  induction l1 as [|a l1 IH]; intros l2 S1 S2 P N.
  - apply Permutation_nil in P. now subst.
  - destruct l2 as [|b l2];
      [apply Permutation_sym, Permutation_nil in P; discriminate|].
    assert (Hab : key_le a b).
    { apply (key_le_head a b l1 S1).
      apply (Permutation_in b (Permutation_sym P)). now left. }
    assert (Hba : key_le b a).
    { apply (key_le_head b a l2 S2).
      apply (Permutation_in a P). now left. }
    assert (Hk : fst a = fst b) by now apply String.leb_antisym.
    assert (E : a = b).
    { assert (Hin : In b (a :: l1))
        by (apply (Permutation_in b (Permutation_sym P)); now left).
      destruct Hin as [E | Hin]; [exact E|]. exfalso.
      inversion N as [|k ks Hnot _]; subst. apply Hnot.
      rewrite Hk. now apply in_map. }
    subst b. f_equal.
    inversion S1; inversion S2; inversion N; subst.
    apply IH; auto. now apply Permutation_cons_inv in P.
Qed.

(** The serialization does not depend on the order the items were put
    into the dict. *)
Lemma json_dumps_sorted_same_dict (d1 d2 : dict) :
  same_dict d1 d2 -> json_dumps_sorted d1 = json_dumps_sorted d2.
Proof.
  intros [P N]. unfold json_dumps_sorted.
  assert (E : sort_items d1 = sort_items d2); [|now rewrite E].
  apply sorted_items_unique; try apply sort_items_sorted.
  - rewrite sort_items_perm, P. symmetry. apply sort_items_perm.
  - apply (Permutation_NoDup
             (Permutation_map fst (Permutation_sym (sort_items_perm d1)))).
    exact N.
Qed.

(** C4 (as amended). Each implementation's block hash is reproducible.
    In [main.py], blocks with the same index, timestamp, payload (as a
    dict, in whatever order it was filled), [previous_hash] and nonce get
    the same hash: 64 lowercase hexadecimal characters, the SHA-256 of
    index, timestamp, sorted-key JSON of the payload, [previous_hash] and
    nonce written one after the other. In [python.py], blocks with the
    same index, timestamp, payload (same items in the same order) and
    [previous_hash] get the same hash: the SHA-256 of index, timestamp,
    [str] of the payload and [previous_hash]. *)
Theorem calculate_hash_reproducible (b1 b2 : Main.Block) :
  Main.index b1 = Main.index b2 ->
  Main.timestamp b1 = Main.timestamp b2 ->
  same_dict (Main.data b1) (Main.data b2) ->
  Main.previous_hash b1 = Main.previous_hash b2 ->
  Main.nonce b1 = Main.nonce b2 ->
  Main.calculate_hash b1 = Main.calculate_hash b2 /\
  hex64 (Main.calculate_hash b1) /\
  Main.calculate_hash b1 =
    sha256_hex (str_int (Main.index b1) ++ Main.timestamp b1 ++
                json_dumps_sorted (Main.data b1) ++ Main.previous_hash b1 ++
                str_int (Main.nonce b1)) /\
  (forall p1 p2 : PythonPy.Block,
     PythonPy.index p1 = PythonPy.index p2 ->
     PythonPy.timestamp p1 = PythonPy.timestamp p2 ->
     PythonPy.data p1 = PythonPy.data p2 ->
     PythonPy.previous_hash p1 = PythonPy.previous_hash p2 ->
     PythonPy.calculate_hash p1 = PythonPy.calculate_hash p2 /\
     hex64 (PythonPy.calculate_hash p1) /\
     PythonPy.calculate_hash p1 =
       sha256_hex (str_int (PythonPy.index p1) ++ PythonPy.timestamp p1 ++
                   str_dict (PythonPy.data p1) ++ PythonPy.previous_hash p1)).
Proof.
  intros Hi Ht Hd Hp Hn. split; [|split; [|split]].
  - unfold Main.calculate_hash, Main.block_string.
    now rewrite Hi, Ht, Hp, Hn, (json_dumps_sorted_same_dict _ _ Hd).
  - apply sha256_hex_hex64.
  - reflexivity.
  - intros p1 p2 Hi' Ht' Hd' Hp'. split; [|split].
    + unfold PythonPy.calculate_hash, PythonPy.block_string.
      now rewrite Hi', Ht', Hd', Hp'.
    + apply sha256_hex_hex64.
    + reflexivity.
Qed.

(** The same payload filled in two orders, hashed by [main.py]. *)
Lemma calculate_hash_reproducible_witness :
  same_dict [("title", PyStr "X"); ("inventor", PyStr "Ada Park")]
            [("inventor", PyStr "Ada Park"); ("title", PyStr "X")] /\
  Main.calculate_hash
    (Main.mkBlock 1 Sample.now_empty
       [("title", PyStr "X"); ("inventor", PyStr "Ada Park")]
       Sample.genesis_hash 0 "" "") =
  Main.calculate_hash
    (Main.mkBlock 1 Sample.now_empty
       [("inventor", PyStr "Ada Park"); ("title", PyStr "X")]
       Sample.genesis_hash 0 "00" "ff").
Proof.
  assert (Hd : same_dict [("title", PyStr "X"); ("inventor", PyStr "Ada Park")]
                 [("inventor", PyStr "Ada Park"); ("title", PyStr "X")]).
  { split; [apply perm_swap|].
    simpl. constructor.
    - intros [H | []]. discriminate H.
    - constructor; [intros [] | constructor]. }
  split; [exact Hd|].
  exact (proj1 (calculate_hash_reproducible
                  (Main.mkBlock 1 Sample.now_empty
                     [("title", PyStr "X"); ("inventor", PyStr "Ada Park")]
                     Sample.genesis_hash 0 "" "")
                  (Main.mkBlock 1 Sample.now_empty
                     [("inventor", PyStr "Ada Park"); ("title", PyStr "X")]
                     Sample.genesis_hash 0 "00" "ff")
                  eq_refl eq_refl Hd eq_refl eq_refl)).
Defined.

(** C4 as stated fails: two blocks with the same index, timestamp,
    payload and [previous_hash] (and the nonce 0 that a block of
    [python.py], having none, would be given) get different hashes from
    the two files. *)
Lemma main_and_python_hashes_differ :
  let d := [("title", PyStr "X")] in
  let m := Main.Block_init 1 Sample.now_empty d "" 0 in
  let p := PythonPy.Block_init 1 Sample.now_empty d "" in
  Main.index m = PythonPy.index p /\
  Main.timestamp m = PythonPy.timestamp p /\
  Main.data m = PythonPy.data p /\
  Main.previous_hash m = PythonPy.previous_hash p /\
  Main.nonce m = 0 /\
  Main.calculate_hash m <> PythonPy.calculate_hash p.
Proof.
  cbv zeta. conjuncts;
    try reflexivity.
  texts_differ.
Qed.

(** ** The statistics snapshot *)

Section StatsProperties.

Variable datetime : Type.
Variable fromisoformat : string -> option datetime.
Variable float : Type.
Variable total_seconds : datetime -> datetime -> float.
Variable fsum : list float -> float.
Variable fdiv : float -> Z -> float.

Lemma parse_timestamps_ok (blocks : list Main.Block) :
  (forall b, In b blocks -> fromisoformat (Main.timestamp b) <> None) ->
  exists ts : list datetime,
    Main.parse_timestamps datetime fromisoformat blocks = Ok ts /\
    Forall2 (parses fromisoformat) blocks ts.
Proof.
  induction blocks as [|b blocks IH]; intros H; simpl.
  - exists []. split; [reflexivity | constructor].
  - destruct (fromisoformat (Main.timestamp b)) as [t|] eqn:E;
      [|exfalso; apply (H b); [now left | exact E]].
    destruct IH as (ts & Hts & HF); [intros b' Hb'; apply H; now right|].
    exists (t :: ts). rewrite Hts. split; [reflexivity|].
    constructor; [exact E | exact HF].
Qed.

Lemma item_app_middle {A : Type} (p r : list A) (a : A) :
  item (p ++ a :: r) (List.length p) = Ok a.
Proof.
  unfold item. rewrite nth_error_app2 by lia. now rewrite Nat.sub_diag.
Qed.

(** The comprehension over [range(1, len(timestamps))] lists the
    differences between neighbours. *)
Lemma time_diffs_over_consecutive (r : list datetime) :
  forall (p : list datetime) (a : datetime),
    Main.time_diffs_over datetime float total_seconds (p ++ a :: r)
      (seq (S (List.length p)) (List.length r))
    = Ok (consecutive total_seconds (a :: r)).
Proof.
  induction r as [|b r IH]; intros p a; [reflexivity|].
  cbn [List.length seq Main.time_diffs_over].
  replace (p ++ a :: b :: r) with ((p ++ [a]) ++ b :: r)
    by now rewrite <- app_assoc.
  replace (S (List.length p)) with (List.length (p ++ [a]))
    by (rewrite length_app; simpl; lia).
  rewrite item_app_middle. cbn [bind].
  replace (List.length (p ++ [a]) - 1)%nat with (List.length p)
    by (rewrite length_app; simpl; lia).
  rewrite <- app_assoc. cbn [app]. rewrite item_app_middle. cbn [bind].
  replace (p ++ a :: b :: r) with ((p ++ [a]) ++ b :: r)
    by now rewrite <- app_assoc.
  rewrite IH. reflexivity.
Qed.

Lemma time_diffs_of_timestamps (ts : list datetime) :
  Main.time_diffs_over datetime float total_seconds ts
    (seq 1 (List.length ts - 1))
  = Ok (consecutive total_seconds ts).
Proof.
  destruct ts as [|a r]; [reflexivity|].
  cbn [List.length]. rewrite Nat.sub_succ, Nat.sub_0_r.
  exact (time_diffs_over_consecutive r [] a).
Qed.

Lemma consecutive_length {A B : Type} (f : A -> A -> B) (l : list A) :
  List.length (consecutive f l) = (List.length l - 1)%nat.
Proof.
  induction l as [|a [|b r] IH]; try reflexivity.
  cbn [consecutive List.length] in *. rewrite IH. lia.
Qed.

Lemma sum_nonces_total (c : list Main.Block) :
  Main.sum_nonces c = total_nonce c.
Proof.
  unfold Main.sum_nonces.
  assert (H : forall acc,
             fold_left (fun a b => a + Main.nonce b) c acc
             = acc + total_nonce c).
  { induction c as [|b c IH]; intros acc; simpl; [lia|]. rewrite IH. lia. }
  rewrite H. lia.
Qed.

Lemma last_item_nonempty {A : Type} (a : A) (l : list A) :
  exists b, last_item (a :: l) = Ok b.
Proof.
  destruct (exists_last (l := a :: l)) as (l' & b & E); [discriminate|].
  exists b. rewrite E. apply last_item_snoc.
Qed.

(** C9. When the timestamps of the blocks after genesis parse, the
    snapshot is produced, and in it: the number of on-chain records is
    the chain length minus 1; the total proof of work is the sum of the
    nonces of all blocks; the average time between blocks is 0 with fewer
    than two blocks after genesis, and otherwise the sum of the
    differences, in seconds, between the timestamps of neighbouring
    blocks after genesis, divided by their number; with exactly two such
    blocks it is their difference. *)
Theorem stats_snapshot (self : Main.Blockchain) (c : list Main.Block) :
  Main.chain self = Some c ->
  (forall b, In b (skipn 1 c) -> fromisoformat (Main.timestamp b) <> None) ->
  exists (s : Main.stats float) (ts : list datetime),
    Main.get_blockchain_stats datetime fromisoformat float total_seconds
      fsum fdiv self = Ok s /\
    Main.total_blocks s = Z.of_nat (List.length c) /\
    Main.total_patents s = Z.of_nat (List.length c) - 1 /\
    Main.total_hash_power s = total_nonce c /\
    Main.is_chain_valid self = Ok (Main.chain_valid s) /\
    Forall2 (parses fromisoformat) (skipn 1 c) ts /\
    (Z.of_nat (List.length c) - 1 < 2 ->
     Main.average_block_time s = Main.Int 0) /\
    (2 <= Z.of_nat (List.length c) - 1 ->
     Main.average_block_time s =
       Main.Float
         (fdiv (fsum (consecutive total_seconds ts))
               (Z.of_nat (List.length ts) - 1))) /\
    (forall a b : datetime,
       ts = [a; b] ->
       (forall x, fsum [x] = x) -> (forall x, fdiv x 1 = x) ->
       Main.average_block_time s = Main.Float (total_seconds b a)).
Proof.
  intros Hc Hp.
  destruct (is_chain_valid_spec self c Hc) as (v & Hv & _).
  destruct (parse_timestamps_ok (skipn 1 c) Hp) as (ts & Hts & HF).
  assert (Hlen : List.length ts = (List.length c - 1)%nat).
  { rewrite <- (Forall2_length HF), length_skipn. reflexivity. }
  assert (Hlatest : exists h,
             match c with
             | [] => Ok "N/A"%string
             | _ :: _ => b <- last_item c ;; Ok (Main.hash b)
             end = Ok h).
  { destruct c as [|a l]; [now exists "N/A"%string|].
    destruct (last_item_nonempty a l) as (b & ->).
    now exists (Main.hash b). }
  destruct Hlatest as (h & Hh).
  unfold Main.get_blockchain_stats. rewrite Hc. cbn [getattr bind].
  rewrite Hv. cbn [bind]. rewrite Hh. cbn [bind].
  destruct (Z.of_nat (List.length c) >? 1) eqn:E1.
  - rewrite Hts. cbn [bind].
    destruct (Z.of_nat (List.length ts) >? 1) eqn:E2.
    + rewrite time_diffs_of_timestamps. cbn [bind].
      eexists; exists ts. split; [reflexivity|].
      cbn [Main.set_average_block_time Main.total_blocks Main.total_patents
           Main.total_hash_power Main.chain_valid Main.average_block_time].
      rewrite consecutive_length.
      replace (Z.of_nat (List.length ts - 1))
        with (Z.of_nat (List.length ts) - 1) by lia.
      repeat split; auto using sum_nonces_total; try lia.
      intros a b -> Hsum Hdiv. cbn. now rewrite Hsum, Hdiv.
    + eexists; exists ts. split; [reflexivity|].
      cbn [Main.total_blocks Main.total_patents Main.total_hash_power
           Main.chain_valid Main.average_block_time].
      repeat split; auto using sum_nonces_total; try lia.
      intros a b -> _ _. cbn in E2. discriminate.
  - eexists; exists ts. split; [reflexivity|].
    cbn [Main.total_blocks Main.total_patents Main.total_hash_power
         Main.chain_valid Main.average_block_time].
    repeat split; auto using sum_nonces_total; try lia.
    intros a b -> _ _. cbn in Hlen. lia.
Qed.

End StatsProperties.

(** The sample chain, with the clock of the examples: two records, four
    nonce steps in all, blocks ten seconds apart. *)
Lemma stats_snapshot_witness :
  Main.chain Sample.ledgerAB
    = Some [Sample.genesis; Sample.blockA; Sample.blockB] /\
  exists s : Main.stats Q,
    Main.get_blockchain_stats Z Clock.fromisoformat Q Clock.total_seconds
      Clock.fsum Clock.fdiv Sample.ledgerAB = Ok s /\
    Main.total_patents s = 2 /\
    Main.total_hash_power s = 4 /\
    Main.average_block_time s = Main.Float (Qmake 10 1).
Proof.
  split; [reflexivity|].
  destruct (stats_snapshot Z Clock.fromisoformat Q Clock.total_seconds
              Clock.fsum Clock.fdiv Sample.ledgerAB
              [Sample.genesis; Sample.blockA; Sample.blockB] eq_refl)
    as (s & ts & Hs & _ & Hp & Hw & _ & HF & _ & Havg & _).
  - intros b [<- | [<- | []]]; vm_compute; discriminate.
  - exists s. split; [exact Hs|]. split; [exact Hp|]. split; [exact Hw|].
    rewrite Havg by (simpl; lia).
    inversion HF as [|bA tA l1 l1' HA HF1]; subst.
    inversion HF1 as [|bB tB l2 l2' HB HF2]; subst.
    inversion HF2; subst.
    vm_compute in HA. vm_compute in HB.
    injection HA as <-. injection HB as <-.
    vm_compute. reflexivity.
Defined.

(** * Further properties of the engine of [main.py] *)

(** ** Mining that cannot end *)

Lemma take_length (n : nat) (s : string) :
  String.length (take n s) = Nat.min n (String.length s).
Proof.
  revert s. induction n as [|n IH]; intros [|c s]; simpl; try reflexivity.
  now rewrite IH.
Qed.

Lemma repeat_char_length (c : ascii) (n : nat) :
  String.length (repeat_char c n) = n.
Proof. induction n as [|n IH]; simpl; [reflexivity | now rewrite IH]. Qed.

(** A hash can only meet a target that is no longer than the hash. *)
Lemma meets_target_bounds (h : string) (d : Z) :
  Main.meets_target h d = true ->
  (0 <= d -> d <= py_len h) /\ (d < 0 -> py_len h + d <= 0).
Proof.
  unfold Main.meets_target. intros H. apply String.eqb_eq in H.
  apply (f_equal String.length) in H.
  unfold slice_to, str_mul, py_len in *.
  rewrite repeat_char_length in H.
  destruct (0 <=? d) eqn:E; rewrite take_length in H.
  - apply Z.leb_le in E. split; intros; lia.
  - apply Z.leb_gt in E. split; intros; lia.
Qed.

(** X1. [mine_block] never returns when the difficulty is above 64, the
    length of a digest, or between -63 and -1: on a block whose stored
    hash has 64 characters every test of the loop fails, whatever the
    number of turns. *)
Theorem mine_block_never_returns (fuel : nat) (self : Main.Block) (d : Z) :
  String.length (Main.hash self) = 64%nat ->
  64 < d \/ -64 < d < 0 ->
  Main.mine_block fuel self d = OutOfFuel.
Proof.
  intros Hl Hd. revert self Hl.
  induction fuel as [|fuel IH]; intros self Hl; simpl;
    destruct (Main.meets_target (Main.hash self) d) eqn:E;
    try (apply meets_target_bounds in E; unfold py_len in E;
         rewrite Hl in E; lia).
  - reflexivity.
  - apply IH. cbn [Main.hash Main.set_hash].
    apply (proj1 (sha256_hex_hex64 _)).
Qed.

(** The sample genesis block under a difficulty of 65. *)
Lemma mine_block_never_returns_witness :
  String.length (Main.hash Sample.genesis) = 64%nat /\
  Main.mine_block 1000 Sample.genesis 65 = OutOfFuel.
Proof.
  split; [reflexivity|].
  apply (mine_block_never_returns 1000 Sample.genesis 65);
    [reflexivity | left; lia].
Defined.

(** ** What [add_block] does to the ledger *)

(** A finished [add_block], read backwards: the chain had a last block,
    the ledger a difficulty, and the relinked candidate was mined. *)
Lemma add_block_mined (fuel : nat) (self self' : Main.Blockchain)
    (new_block : Main.Block) :
  Main.add_block fuel self new_block = Ok self' ->
  exists (c : list Main.Block) (latest mined : Main.Block) (d : Z),
    Main.chain self = Some (c ++ [latest]) /\
    Main.difficulty self = Some d /\
    Main.mine_block fuel
      (Main.set_previous_hash new_block (Main.hash latest)) d = Ok mined /\
    self' = Main.set_chain self ((c ++ [latest]) ++ [mined]).
Proof.
  unfold Main.add_block, Main.get_latest_block. intros H.
  destruct (Main.chain self) as [c|] eqn:Hc; [|discriminate].
  cbn [getattr bind] in H.
  destruct c as [|a c]; [discriminate|].
  destruct (exists_last (l := a :: c)) as (c' & latest & E); [discriminate|].
  rewrite E in *. rewrite last_item_snoc in H. cbn [bind] in H.
  destruct (Main.difficulty self) as [d|] eqn:Hd; [|discriminate].
  cbn [getattr bind] in H.
  destruct (Main.mine_block fuel
              (Main.set_previous_hash new_block (Main.hash latest)) d)
    as [mined| |] eqn:Hm; try discriminate.
  cbn [bind] in H. injection H as <-.
  now exists c', latest, mined, d.
Qed.

Lemma add_block_inv (fuel : nat) (self self' : Main.Blockchain)
    (new_block : Main.Block) :
  Main.add_block fuel self new_block = Ok self' ->
  exists (c : list Main.Block) (latest mined : Main.Block) (d : Z),
    Main.chain self = Some c /\
    last_item c = Ok latest /\
    Main.difficulty self = Some d /\
    self' = Main.set_chain self (c ++ [mined]) /\
    Main.index mined = Main.index new_block /\
    Main.timestamp mined = Main.timestamp new_block /\
    Main.data mined = Main.data new_block /\
    Main.merkle_root mined = Main.merkle_root new_block /\
    Main.previous_hash mined = Main.hash latest /\
    Main.meets_target (Main.hash mined) d = true.
Proof.
  intros H.
  destruct (add_block_mined _ _ _ _ H) as (c & latest & mined & d & Hc & Hd
                                           & Hm & ->).
  apply mine_block_run in Hm.
  destruct Hm as (k & _ & _ & Hi & Ht & Hda & Hp & Hmr & Hz & _).
  exists (c ++ [latest]), latest, mined, d.
  split; [exact Hc|]. split; [apply last_item_snoc|].
  repeat (split; [assumption || reflexivity|]). assumption.
Qed.

(** X2. When [add_block] returns, the chain is the old chain with one
    block appended, no other attribute of the ledger changed; the
    appended block has the index, timestamp, payload and payload digest
    of the candidate, the stored hash of the former last block as its
    link, and a hash that meets the difficulty. *)
Theorem add_block_appends (fuel : nat) (self self' : Main.Blockchain)
    (new_block : Main.Block) :
  Main.add_block fuel self new_block = Ok self' ->
  exists (c : list Main.Block) (latest mined : Main.Block) (d : Z),
    Main.chain self = Some c /\
    last_item c = Ok latest /\
    Main.difficulty self = Some d /\
    self' = Main.set_chain self (c ++ [mined]) /\
    Main.index mined = Main.index new_block /\
    Main.timestamp mined = Main.timestamp new_block /\
    Main.data mined = Main.data new_block /\
    Main.merkle_root mined = Main.merkle_root new_block /\
    Main.previous_hash mined = Main.hash latest /\
    Main.meets_target (Main.hash mined) d = true.
Proof. apply add_block_inv. Qed.

(** The first record of the sample ledger. *)
Lemma add_block_appends_witness :
  Main.add_block 1 Sample.ledger
    (Main.Block_init 1 (Main.now Sample.drawA) Sample.dataA "" 0)
    = Ok Sample.ledgerA /\
  exists (c : list Main.Block) (latest mined : Main.Block) (d : Z),
    Main.chain Sample.ledger = Some c /\
    last_item c = Ok latest /\
    Main.difficulty Sample.ledger = Some d /\
    Sample.ledgerA = Main.set_chain Sample.ledger (c ++ [mined]) /\
    Main.index mined = 1 /\
    Main.previous_hash mined = Main.hash latest.
Proof.
  assert (H : Main.add_block 1 Sample.ledger
                (Main.Block_init 1 (Main.now Sample.drawA) Sample.dataA "" 0)
              = Ok Sample.ledgerA) by (by_running).
  split; [exact H|].
  destruct (add_block_appends _ _ _ _ H)
    as (c & latest & mined & d & H1 & H2 & H3 & H4 & H5 & _ & _ & _ & H9 & _).
  exists c, latest, mined, d. repeat (split; [assumption|]). assumption.
Defined.

(** ** What validation sees and what it misses *)

Lemma link_ok_prefix (c1 c2 : list Main.Block) (i : nat) :
  (i < List.length c1)%nat -> link_ok (c1 ++ c2) i -> link_ok c1 i.
Proof.
  intros Hi (cur & prev & E1 & E2 & H1 & H2). exists cur, prev.
  rewrite nth_error_app1 in E1 by lia. rewrite nth_error_app1 in E2 by lia.
  now repeat split.
Qed.

(** X3. Validation does not notice that records were dropped from the
    end: every prefix of a chain that validates validates too. *)
Theorem truncation_undetected (self : Main.Blockchain)
    (c1 c2 : list Main.Block) :
  Main.chain self = Some (c1 ++ c2) ->
  Main.is_chain_valid self = Ok true ->
  Main.is_chain_valid (Main.set_chain self c1) = Ok true.
Proof.
  intros Hc Hv.
  apply (is_chain_valid_true_iff (Main.set_chain self c1) c1 eq_refl).
  intros i Hi. apply (link_ok_prefix c1 c2); [lia|].
  apply (proj1 (is_chain_valid_true_iff self _ Hc) Hv).
  rewrite length_app. lia.
Qed.

(** The sample chain of three blocks, cut back to the genesis block. *)
Lemma truncation_undetected_witness :
  Main.is_chain_valid Sample.ledgerAB = Ok true /\
  Main.is_chain_valid (Main.set_chain Sample.ledgerAB [Sample.genesis])
    = Ok true.
Proof.
  assert (Hv : Main.is_chain_valid Sample.ledgerAB = Ok true)
    by (by_running).
  split; [exact Hv|].
  exact (truncation_undetected Sample.ledgerAB [Sample.genesis]
           [Sample.blockA; Sample.blockB] eq_refl Hv).
Defined.

(** X4. Validation does not protect the last block: in a chain that
    validates, the last block can be replaced by any block that keeps its
    link and stores the hash of its own fields (mined or not, whatever
    its payload), and the chain still validates. *)
Theorem last_block_rewrite_undetected (self : Main.Blockchain)
    (c : list Main.Block) (l b' : Main.Block) :
  Main.chain self = Some (c ++ [l]) ->
  Main.is_chain_valid self = Ok true ->
  Main.hash b' = Main.calculate_hash b' ->
  Main.previous_hash b' = Main.previous_hash l ->
  Main.is_chain_valid (Main.set_chain self (c ++ [b'])) = Ok true.
Proof.
  intros Hc Hv Hh Hp.
  apply (is_chain_valid_true_iff (Main.set_chain self (c ++ [b'])) _ eq_refl).
  intros i Hi. rewrite length_app in Hi. simpl in Hi.
  assert (Hold : link_ok (c ++ [l]) i).
  { apply (proj1 (is_chain_valid_true_iff self _ Hc) Hv).
    rewrite length_app. simpl. lia. }
  destruct (Nat.eq_dec i (List.length c)) as [-> | Hne].
  - destruct Hold as (cur & prev & E1 & E2 & H1 & H2).
    rewrite nth_error_app2 in E1 by lia.
    rewrite Nat.sub_diag in E1. injection E1 as <-.
    rewrite nth_error_app1 in E2 by lia.
    exists b', prev. split; [|split; [|split]].
    + rewrite nth_error_app2 by lia. now rewrite Nat.sub_diag.
    + rewrite nth_error_app1 by lia. exact E2.
    + exact Hh.
    + now rewrite Hp.
  - apply link_ok_app; [lia|].
    apply (link_ok_prefix c [l]); [lia | exact Hold].
Qed.

(** The sample chain of two blocks, the record of its last block emptied
    and the hash of the fields stored again, without mining. *)
Lemma last_block_rewrite_undetected_witness :
  Main.is_chain_valid Sample.ledgerA = Ok true /\
  Main.is_chain_valid
    (Main.set_chain Sample.ledgerA
       ([Sample.genesis] ++
        [Main.Block_init 1 Sample.now_empty [] Sample.genesis_hash 0]))
    = Ok true.
Proof.
  assert (Hv : Main.is_chain_valid Sample.ledgerA = Ok true) by (by_running).
  split; [exact Hv|].
  apply (last_block_rewrite_undetected Sample.ledgerA [Sample.genesis]
           Sample.blockA
           (Main.Block_init 1 Sample.now_empty [] Sample.genesis_hash 0)
           eq_refl Hv); reflexivity.
Defined.

(** X5. A change of the stored hash of any block but the last is
    detected, the genesis block included: the next block no longer links
    to it. So a tampered block whose hash is computed again is caught
    unless it is the last one. *)
Theorem changed_hash_detected (self : Main.Blockchain) (c : list Main.Block)
    (i : nat) (b b' : Main.Block) :
  Main.chain self = Some c ->
  Main.is_chain_valid self = Ok true ->
  nth_error c i = Some b ->
  (S i < List.length c)%nat ->
  Main.hash b' <> Main.hash b ->
  Main.is_chain_valid (Main.set_chain self (replace_at c i b')) = Ok false.
Proof.
  intros Hc Hv Hb Hi Hne.
  apply (is_chain_valid_false_iff
           (Main.set_chain self (replace_at c i b')) _ eq_refl).
  intros Hall.
  destruct (Hall (S i)) as (cur & prev & E1 & E2 & _ & H2).
  { rewrite length_replace_at. lia. }
  destruct (proj1 (is_chain_valid_true_iff self c Hc) Hv (S i))
    as (cur0 & prev0 & F1 & F2 & _ & G2); [lia|].
  rewrite nth_error_replace_at_other in E1 by lia.
  replace (S i - 1)%nat with i in * by lia.
  rewrite nth_error_replace_at_same in E2 by lia.
  rewrite Hb in F2.
  injection E2 as <-. injection F2 as <-.
  rewrite F1 in E1. injection E1 as <-.
  apply Hne. now rewrite <- H2, <- G2.
Qed.

(** The genesis block of the sample chain with another stored hash. *)
Lemma changed_hash_detected_witness :
  Main.is_chain_valid Sample.ledgerA = Ok true /\
  Main.is_chain_valid
    (Main.set_chain Sample.ledgerA
       (replace_at [Sample.genesis; Sample.blockA] 0
          (Main.set_hash Sample.genesis "00"))) = Ok false.
Proof.
  assert (Hv : Main.is_chain_valid Sample.ledgerA = Ok true) by (by_running).
  split; [exact Hv|].
  apply (changed_hash_detected Sample.ledgerA _ 0 Sample.genesis
           (Main.set_hash Sample.genesis "00") eq_refl Hv eq_refl).
  - simpl. lia.
  - discriminate.
Defined.

(** ** The statistics snapshot and timestamps that do not parse *)

Section StatsErrors.

Variable datetime : Type.
Variable fromisoformat : string -> option datetime.
Variable float : Type.
Variable total_seconds : datetime -> datetime -> float.
Variable fsum : list float -> float.
Variable fdiv : float -> Z -> float.

Lemma parse_timestamps_raises (blocks : list Main.Block) (b : Main.Block) :
  In b blocks -> fromisoformat (Main.timestamp b) = None ->
  Main.parse_timestamps datetime fromisoformat blocks = Raise ValueError.
Proof.
  intros Hin Hb. induction blocks as [|a blocks IH]; [destruct Hin|].
  simpl. destruct (fromisoformat (Main.timestamp a)) as [t|] eqn:E;
    [|reflexivity].
  destruct Hin as [-> | Hin]; [congruence|].
  now rewrite (IH Hin).
Qed.

(** X6. One block after the genesis block whose timestamp is not in ISO
    format makes [get_blockchain_stats] raise [ValueError], also when it is
    the only record, where no time difference is needed; the timestamp of
    the genesis block is never parsed. *)
Theorem stats_unparsed_timestamp_raises (self : Main.Blockchain)
    (c : list Main.Block) (b : Main.Block) :
  Main.chain self = Some c ->
  In b (skipn 1 c) ->
  fromisoformat (Main.timestamp b) = None ->
  Main.get_blockchain_stats datetime fromisoformat float total_seconds
    fsum fdiv self = Raise ValueError.
Proof.
  intros Hc Hin Hb.
  destruct (is_chain_valid_spec self c Hc) as (v & Hv & _).
  destruct c as [|g [|a l]]; try (now destruct Hin).
  destruct (last_item_nonempty g (a :: l)) as (z & Hz).
  unfold Main.get_blockchain_stats. rewrite Hc. cbn [getattr bind].
  rewrite Hv. cbn [bind]. rewrite Hz. cbn [bind].
  replace (Z.of_nat (List.length (g :: a :: l)) >? 1) with true
    by (symmetry; apply Z.gtb_lt; simpl List.length; lia).
  now rewrite (parse_timestamps_raises _ b Hin Hb).
Qed.

End StatsErrors.

(** The sample chain of two blocks, the record stamped with a date in
    another format. *)
Lemma stats_unparsed_timestamp_raises_witness :
  Clock.fromisoformat "15/03/2024 10:30" = None /\
  Main.get_blockchain_stats Z Clock.fromisoformat Q Clock.total_seconds
    Clock.fsum Clock.fdiv
    (Main.set_chain Sample.ledger
       [Sample.genesis;
        Main.Block_init 1 "15/03/2024 10:30" Sample.dataA
          Sample.genesis_hash 0])
    = Raise ValueError.
Proof.
  split; [reflexivity|].
  eapply (stats_unparsed_timestamp_raises Z Clock.fromisoformat Q
            Clock.total_seconds Clock.fsum Clock.fdiv).
  - reflexivity.
  - left. reflexivity.
  - reflexivity.
Defined.

(** ** The submit form of [main.py] *)

Lemma all_three_true (t i d : string) :
  t <> "" -> i <> "" -> d <> "" ->
  Main.all [PyStr t; PyStr i; PyStr d] = true.
Proof.
  intros Ht Hi Hd. unfold Main.all. simpl.
  apply String.eqb_neq in Ht, Hi, Hd. now rewrite Ht, Hi, Hd.
Qed.

Lemma form_score (r : Z) (t d h : string) :
  Main.verify_patent_authenticity r
    [("title", PyStr t); ("description", PyStr d); ("doc_hash", PyStr h)]
  = Ok (score_spec t d h r).
Proof.
  apply verify_patent_authenticity_eq; left; reflexivity.
Qed.

Lemma score_spec_bounds (t d h : string) (r : Z) :
  -5 <= r <= 15 -> 45 <= score_spec t d h r <= 100.
Proof.
  intros Hr. unfold score_spec, clamp.
  destruct (py_len t >? 10), (py_len d >? 50), (String.eqb h ""); lia.
Qed.

Lemma on_chain_flag (d : Main.draw) (f : Main.form) (h : string) (s : Z) :
  truthy (dict_get_default (Main.patent_data_of d f h s)
            "is_on_blockchain" PyNone)
  = String.eqb (Main.store_option f) "On Blockchain".
Proof. reflexivity. Qed.

(** X7. A submission with a non-empty title, inventor and description
    (blank ones included) and a storage choice other than the ledger is
    always accepted, whatever the state of the ledger and without mining:
    the ledger is left as it is and exactly one record is appended to the
    off-chain list, stamped with the clock and scored as
    [verify_patent_authenticity] scores the form, between 45 and 100. *)
Theorem submit_off_chain (fuel : nat) (d : Main.draw) (f : Main.form)
    (st : Main.session) :
  Main.patent_title f <> "" ->
  Main.inventor_name f <> "" ->
  Main.patent_description f <> "" ->
  Main.store_option f <> "On Blockchain" ->
  -5 <= Main.randint d <= 15 ->
  exists score : Z,
    Main.submit fuel d f st =
      Ok (Main.mkSession (Main.toy_chain st)
            (Main.off_chain_list st ++
             [(Main.now d,
               Main.patent_data_of d f (Main.doc_hash_of f) score)])) /\
    score = score_spec (Main.patent_title f) (Main.patent_description f)
              (Main.doc_hash_of f) (Main.randint d) /\
    45 <= score <= 100.
Proof.
  intros Ht Hi Hd Hs Hr.
  exists (score_spec (Main.patent_title f) (Main.patent_description f)
            (Main.doc_hash_of f) (Main.randint d)).
  split; [|split; [reflexivity | now apply score_spec_bounds]].
  unfold Main.submit.
  rewrite (all_three_true _ _ _ Ht Hi Hd). cbn [negb].
  rewrite form_score. cbn [bind]. rewrite on_chain_flag.
  apply String.eqb_neq in Hs. now rewrite Hs.
Qed.

(** A form filled with blanks, stored off the ledger, on a ledger that
    has no chain at all. *)
Lemma submit_off_chain_witness :
  exists score : Z,
    Main.submit 0 Sample.drawA
      (Main.mkForm " " " " "Other" "Normal" "Off Blockchain" 0 " " None
         "" "" "" "")
      (Main.mkSession Main.new_object []) =
      Ok (Main.mkSession Main.new_object
            ([] ++
             [(Main.now Sample.drawA,
               Main.patent_data_of Sample.drawA
                 (Main.mkForm " " " " "Other" "Normal" "Off Blockchain" 0
                    " " None "" "" "" "")
                 "" score)])) /\
    45 <= score <= 100.
Proof.
  destruct (submit_off_chain 0 Sample.drawA
              (Main.mkForm " " " " "Other" "Normal" "Off Blockchain" 0 " "
                 None "" "" "" "")
              (Main.mkSession Main.new_object []))
    as (score & H & _ & Hb);
    [discriminate | discriminate | discriminate | discriminate
    | vm_compute; split; discriminate |].
  exists score. split; [exact H | exact Hb].
Defined.

(** X8. When a submission with the three required fields and the ledger
    as storage choice returns, the off-chain list is untouched and the
    chain has grown by exactly one block: its index is the former length
    of the chain, its timestamp the clock, its payload the record of the
    form with the score of the form, its payload digest the hash of the
    canonical serialization of that record, its link the stored hash of
    the former last block. *)
Theorem submit_on_chain (fuel : nat) (d : Main.draw) (f : Main.form)
    (st st' : Main.session) :
  Main.patent_title f <> "" ->
  Main.inventor_name f <> "" ->
  Main.patent_description f <> "" ->
  Main.store_option f = "On Blockchain" ->
  Main.submit fuel d f st = Ok st' ->
  Main.off_chain_list st' = Main.off_chain_list st /\
  exists (c : list Main.Block) (latest mined : Main.Block),
    Main.chain (Main.toy_chain st) = Some c /\
    last_item c = Ok latest /\
    Main.toy_chain st' = Main.set_chain (Main.toy_chain st) (c ++ [mined]) /\
    Main.index mined = Z.of_nat (List.length c) /\
    Main.timestamp mined = Main.now d /\
    Main.data mined =
      Main.patent_data_of d f (Main.doc_hash_of f)
        (score_spec (Main.patent_title f) (Main.patent_description f)
           (Main.doc_hash_of f) (Main.randint d)) /\
    Main.merkle_root mined = sha256_hex (json_dumps_sorted (Main.data mined)) /\
    Main.previous_hash mined = Main.hash latest.
Proof.
  intros Ht Hi Hd Hs H. unfold Main.submit in H.
  rewrite (all_three_true _ _ _ Ht Hi Hd) in H. cbn [negb] in H.
  rewrite form_score in H. cbn [bind] in H. rewrite on_chain_flag in H.
  rewrite Hs in H. cbn [String.eqb Ascii.eqb Bool.eqb] in H.
  destruct (Main.chain (Main.toy_chain st)) as [c|] eqn:Hc; [|discriminate].
  cbn [getattr bind] in H.
  match type of H with
  | (x <- Main.add_block ?fu ?s ?nb ;; _) = _ =>
      destruct (Main.add_block fu s nb) as [ledger| |] eqn:Ha;
        try discriminate
  end.
  cbn [bind] in H. injection H as <-.
  apply add_block_inv in Ha.
  destruct Ha as (c0 & latest & mined & d0 & E1 & E2 & _ & E4 & E5 & E6 & E7
                  & E8 & E9 & _).
  rewrite Hc in E1. injection E1 as <-.
  split; [reflexivity|].
  exists c, latest, mined. cbn [Main.toy_chain].
  split; [reflexivity|]. split; [exact E2|]. split; [exact E4|].
  split; [exact E5|]. split; [exact E6|]. split; [exact E7|].
  split; [|exact E9].
  rewrite E8, E7. reflexivity.
Qed.

(** The first submission of the sample session. *)
Lemma submit_on_chain_witness :
  Main.submit 1 Sample.drawA Sample.formA (Main.mkSession Sample.ledger [])
    = Ok (Main.mkSession Sample.ledgerA []) /\
  exists (c : list Main.Block) (latest mined : Main.Block),
    Main.chain Sample.ledger = Some c /\
    last_item c = Ok latest /\
    Sample.ledgerA = Main.set_chain Sample.ledger (c ++ [mined]) /\
    Main.index mined = Z.of_nat (List.length c) /\
    Main.timestamp mined = Main.now Sample.drawA.
Proof.
  assert (H : Main.submit 1 Sample.drawA Sample.formA
                (Main.mkSession Sample.ledger [])
              = Ok (Main.mkSession Sample.ledgerA [])) by (by_running).
  split; [exact H|].
  destruct (submit_on_chain 1 Sample.drawA Sample.formA
              (Main.mkSession Sample.ledger [])
              (Main.mkSession Sample.ledgerA [])
              ltac:(discriminate) ltac:(discriminate) ltac:(discriminate)
              eq_refl H)
    as (_ & c & latest & mined & H1 & H2 & H3 & H4 & H5 & _).
  exists c, latest, mined.
  split; [exact H1|]. split; [exact H2|]. split; [exact H3|].
  split; [exact H4 | exact H5].
Defined.

(** X9. The document hash of a form is empty exactly when no file is
    attached and the description is blank; otherwise it is a digest of 64
    hexadecimal characters. So a blank description passes the test of the
    required fields and yet earns no document hash. *)
Theorem doc_hash_of_cases (f : Main.form) :
  (Main.doc_hash_of f = "" <->
   Main.uploaded_file f = None /\
   Main.strip (Main.patent_description f) = "") /\
  (Main.doc_hash_of f <> "" -> hex64 (Main.doc_hash_of f)).
Proof.
  assert (Hne : forall h, hex64 h -> h <> "").
  { intros h [Hl _] ->. discriminate. }
  unfold Main.doc_hash_of.
  destruct (Main.uploaded_file f) as [[name file_bytes]|].
  - pose proof (hexdigest_hex64 file_bytes) as Hx.
    unfold Main.hash_file_bytes. split; [|intros _; exact Hx].
    split; [intros E; now apply Hne in Hx | intros [[=] _]].
  - cbn [truthy].
    destruct (String.eqb (Main.strip (Main.patent_description f)) "")
      eqn:E; cbn [negb].
    + apply String.eqb_eq in E. split; [now split | congruence].
    + apply String.eqb_neq in E.
      pose proof (sha256_hex_hex64 (Main.patent_description f)) as Hx.
      split; [|intros _; exact Hx].
      split; [intros E'; now apply Hne in Hx | intros [_ E']; contradiction].
Qed.

(** * The application of [python.py] *)

(** ** Counters *)

Lemma increment_present (c : PythonPy.counts) (k : string) :
  In k (map fst c) ->
  exists c' : PythonPy.counts,
    PythonPy.increment c k = Some c' /\
    map fst c' = map fst c /\
    counts_total c' = counts_total c + 1.
Proof.
  induction c as [|[k' n] c IH]; intros Hin; [destruct Hin|].
  simpl. destruct (String.eqb k' k) eqn:E.
  - exists ((k', n + 1) :: c). split; [reflexivity|]. split; [reflexivity|].
    unfold counts_total. simpl. lia.
  - destruct Hin as [Hk | Hin].
    + simpl in Hk. subst k'. rewrite String.eqb_refl in E. discriminate.
    + destruct (IH Hin) as (c' & -> & Hkeys & Htot).
      exists ((k', n) :: c'). split; [reflexivity|].
      split; [simpl; now rewrite Hkeys|].
      unfold counts_total in *. simpl. lia.
Qed.

(** ** Appending to the chain *)

Lemma python_add_block_snoc (c : list PythonPy.Block)
    (l new_block : PythonPy.Block) :
  PythonPy.add_block (PythonPy.mkBlockchain (c ++ [l])) new_block =
  Ok (PythonPy.mkBlockchain
        ((c ++ [l]) ++
         [PythonPy.set_hash
            (PythonPy.set_previous_hash new_block (PythonPy.hash l))
            (PythonPy.calculate_hash
               (PythonPy.set_previous_hash new_block (PythonPy.hash l)))])).
Proof.
  unfold PythonPy.add_block, PythonPy.get_latest_block.
  cbn [PythonPy.chain]. rewrite last_item_snoc. reflexivity.
Qed.

Lemma python_chain_ok_snoc (c : list PythonPy.Block)
    (l b : PythonPy.Block) :
  python_chain_ok (c ++ [l]) ->
  PythonPy.index b = Z.of_nat (List.length (c ++ [l])) ->
  PythonPy.hash b = PythonPy.calculate_hash b ->
  PythonPy.previous_hash b = PythonPy.hash l ->
  python_chain_ok ((c ++ [l]) ++ [b]).
Proof.
  intros H Hi Hh Hp i x Hn.
  assert (Hlen : List.length (c ++ [l]) = S (List.length c))
    by (rewrite length_app; simpl; lia).
  destruct (Nat.lt_ge_cases i (List.length (c ++ [l]))) as [Hlt | Hge].
  - rewrite nth_error_app1 in Hn by exact Hlt.
    destruct (H i x Hn) as (A & B & C).
    split; [exact A|]. split; [exact B|].
    destruct i as [|j]; [exact C|].
    destruct C as (p & Hpn & E). exists p. split; [|exact E].
    rewrite nth_error_app1 by lia. exact Hpn.
  - rewrite nth_error_app2 in Hn by exact Hge.
    destruct (i - List.length (c ++ [l]))%nat as [|k] eqn:Ek;
      [|destruct k; discriminate].
    injection Hn as <-.
    assert (Ei : i = S (List.length c)) by lia. subst i.
    split; [exact Hh|]. split; [rewrite Hi, Hlen; reflexivity|].
    exists l. split; [|exact Hp].
    rewrite nth_error_app1 by lia.
    rewrite nth_error_app2 by lia. now rewrite Nat.sub_diag.
Qed.

(** ** What holds in every session the application can reach *)

Lemma python_reachable_inv (st : PythonPy.session) :
  python_reachable st ->
  PythonPy.chain (PythonPy.toy_chain st) <> [] /\
  python_chain_ok (PythonPy.chain (PythonPy.toy_chain st)) /\
  PythonPy.patent_types st = PythonPy.patent_types_list /\
  map fst (PythonPy.counts_on_chain st) = PythonPy.patent_types_list /\
  map fst (PythonPy.counts_off_chain st) = PythonPy.patent_types_list /\
  counts_total (PythonPy.counts_on_chain st) =
    Z.of_nat (List.length (PythonPy.chain (PythonPy.toy_chain st))) - 1 /\
  counts_total (PythonPy.counts_off_chain st) =
    Z.of_nat (List.length (PythonPy.off_chain_list st)) /\
  Forall (fun b => filed true (PythonPy.data b))
    (PythonPy.chain (PythonPy.toy_chain st)) /\
  Forall (fun r => filed false (snd r)) (PythonPy.off_chain_list st).
Proof.
  induction 1 as [now | now f st Hst IH Hin].
  - cbn. split; [discriminate|]. split.
    { intros [|[|i]] b Hn; simpl in Hn; try discriminate.
      injection Hn as <-. repeat split. }
    repeat (split; [reflexivity|]).
    split; [|constructor].
    constructor; [|constructor].
    split; [|reflexivity]. exists "Genesis Block". split; [reflexivity|].
    discriminate.
  - destruct IH as (Hne & Hok & Hty & Hon & Hoff & Hcon & Hcoff & Fon & Foff).
    unfold PythonPy.submit.
    destruct (String.eqb (PythonPy.patent_title f) "") eqn:Et;
      cbn [truthy negb].
    { rewrite Et. cbn [negb fst]. now repeat (split; [assumption|]). }
    rewrite Et. cbn [negb].
    apply String.eqb_neq in Et.
    rewrite Hty in Hin.
    change (dict_get (PythonPy.block_data_of f (PythonPy.doc_hash_of f))
              "is_on_blockchain")
      with (Some (PyBool (String.eqb (PythonPy.store_option f)
                            "On Blockchain"))).
    cbn [truthy].
    destruct (String.eqb (PythonPy.store_option f) "On Blockchain") eqn:Es.
    + destruct st as [[ch] off types con coff].
      cbn [PythonPy.toy_chain PythonPy.chain PythonPy.off_chain_list
           PythonPy.patent_types PythonPy.counts_on_chain
           PythonPy.counts_off_chain] in *.
      destruct (exists_last Hne) as (c & l & ->).
      rewrite python_add_block_snoc.
      cbn [PythonPy.set_toy_chain PythonPy.counts_on_chain
           PythonPy.toy_chain PythonPy.off_chain_list PythonPy.patent_types
           PythonPy.counts_off_chain].
      destruct (increment_present con (PythonPy.patent_type f))
        as (con' & -> & Hkeys & Htot); [now rewrite Hon|].
      cbn [fst PythonPy.set_counts_on_chain PythonPy.set_toy_chain
           PythonPy.toy_chain
           PythonPy.chain PythonPy.off_chain_list PythonPy.patent_types
           PythonPy.counts_on_chain PythonPy.counts_off_chain].
      split; [now destruct (c ++ [l])|].
      split; [apply python_chain_ok_snoc; try reflexivity; exact Hok|].
      split; [assumption|]. split; [now rewrite Hkeys|].
      split; [assumption|].
      split; [rewrite Htot, Hcon, (length_app (c ++ [l])); simpl; lia|].
      split; [assumption|]. split; [|assumption].
      apply Forall_app. split; [assumption|].
      constructor; [|constructor].
      split; [|cbn; now rewrite Es].
      exists (PythonPy.patent_title f). now split.
    + destruct st as [[ch] off types con coff].
      cbn [PythonPy.toy_chain PythonPy.chain PythonPy.off_chain_list
           PythonPy.patent_types PythonPy.counts_on_chain
           PythonPy.counts_off_chain PythonPy.set_off_chain_list] in *.
      destruct (increment_present coff (PythonPy.patent_type f))
        as (coff' & -> & Hkeys & Htot); [now rewrite Hoff|].
      cbn [fst PythonPy.set_counts_off_chain PythonPy.set_off_chain_list
           PythonPy.toy_chain
           PythonPy.chain PythonPy.off_chain_list PythonPy.patent_types
           PythonPy.counts_on_chain PythonPy.counts_off_chain].
      repeat (split; [assumption|]).
      split; [now rewrite Hkeys|]. split; [assumption|].
      split; [rewrite Htot, Hcoff, length_app; simpl; lia|].
      split; [assumption|].
      apply Forall_app. split; [assumption|].
      constructor; [|constructor].
      split; [|cbn; now rewrite Es].
      exists (PythonPy.patent_title f). now split.
Qed.

(** How the handler runs in such a session: nothing for an empty title,
    else one block appended or one record listed, and the counter of the
    type moved. *)
Lemma python_submit_run (now : string) (f : PythonPy.form)
    (st : PythonPy.session) :
  python_reachable st ->
  In (PythonPy.patent_type f) (PythonPy.patent_types st) ->
  let block_data := PythonPy.block_data_of f (PythonPy.doc_hash_of f) in
  (PythonPy.patent_title f = "" /\
   PythonPy.submit now f st = (st, PythonPy.Done)) \/
  (PythonPy.patent_title f <> "" /\
   PythonPy.store_option f = "On Blockchain" /\
   exists (latest b : PythonPy.Block) (c : PythonPy.counts),
     last_item (PythonPy.chain (PythonPy.toy_chain st)) = Ok latest /\
     PythonPy.index b =
       Z.of_nat (List.length (PythonPy.chain (PythonPy.toy_chain st))) /\
     PythonPy.timestamp b = now /\
     PythonPy.data b = block_data /\
     PythonPy.previous_hash b = PythonPy.hash latest /\
     PythonPy.hash b = PythonPy.calculate_hash b /\
     PythonPy.increment (PythonPy.counts_on_chain st) (PythonPy.patent_type f)
       = Some c /\
     PythonPy.submit now f st =
       (PythonPy.mkSession
          (PythonPy.mkBlockchain
             (PythonPy.chain (PythonPy.toy_chain st) ++ [b]))
          (PythonPy.off_chain_list st) (PythonPy.patent_types st) c
          (PythonPy.counts_off_chain st), PythonPy.Done)) \/
  (PythonPy.patent_title f <> "" /\
   PythonPy.store_option f <> "On Blockchain" /\
   exists c : PythonPy.counts,
     PythonPy.increment (PythonPy.counts_off_chain st) (PythonPy.patent_type f)
       = Some c /\
     PythonPy.submit now f st =
       (PythonPy.mkSession (PythonPy.toy_chain st)
          (PythonPy.off_chain_list st ++ [(now, block_data)])
          (PythonPy.patent_types st) (PythonPy.counts_on_chain st) c,
        PythonPy.Done)).
Proof.
  intros Hst Hin block_data. subst block_data.
  destruct (python_reachable_inv st Hst)
    as (Hne & _ & Hty & Hon & Hoff & _).
  rewrite Hty in Hin. unfold PythonPy.submit. cbn [truthy].
  destruct (String.eqb (PythonPy.patent_title f) "") eqn:Et; cbn [negb].
  { apply String.eqb_eq in Et. left. now split. }
  apply String.eqb_neq in Et. right.
  change (dict_get (PythonPy.block_data_of f (PythonPy.doc_hash_of f))
            "is_on_blockchain")
    with (Some (PyBool (String.eqb (PythonPy.store_option f)
                          "On Blockchain"))).
  cbn [truthy].
  destruct st as [[ch] off types con coff].
  cbn [PythonPy.toy_chain PythonPy.chain PythonPy.off_chain_list
       PythonPy.patent_types PythonPy.counts_on_chain
       PythonPy.counts_off_chain PythonPy.set_off_chain_list
       PythonPy.set_toy_chain] in *.
  destruct (String.eqb (PythonPy.store_option f) "On Blockchain") eqn:Es.
  - apply String.eqb_eq in Es. left. split; [exact Et|]. split; [exact Es|].
    destruct (exists_last Hne) as (c & l & ->).
    rewrite python_add_block_snoc.
    destruct (increment_present con (PythonPy.patent_type f))
      as (con' & Hinc & _); [now rewrite Hon|].
    cbn [PythonPy.counts_on_chain]. rewrite Hinc.
    match goal with
    | |- context [(c ++ [l]) ++ [?b]] => exists l, b, con'
    end.
    rewrite last_item_snoc. split; [reflexivity|].
    repeat (split; [reflexivity|]). reflexivity.
  - apply String.eqb_neq in Es. right. split; [exact Et|].
    split; [exact Es|].
    destruct (increment_present coff (PythonPy.patent_type f))
      as (coff' & Hinc & _); [now rewrite Hoff|].
    cbn [PythonPy.counts_off_chain]. rewrite Hinc.
    exists coff'. split; reflexivity.
Qed.

(** X10. In every session the application of [python.py] can reach, the
    chain is in good order: each block stores the hash of its own fields
    (the hash is computed again on appending, unlike in [main.py]), sits
    at its index, and links to the stored hash of the block before it,
    the genesis block to ["0"]. *)
Theorem python_ledger_in_order (st : PythonPy.session) :
  python_reachable st ->
  python_chain_ok (PythonPy.chain (PythonPy.toy_chain st)).
Proof. intros H. apply (python_reachable_inv st H). Qed.

Lemma python_ledger_in_order_witness :
  python_reachable PythonSample.after_one /\
  python_chain_ok (PythonPy.chain (PythonPy.toy_chain PythonSample.after_one)).
Proof.
  assert (H : python_reachable PythonSample.after_one).
  { apply reach_submit; [apply reach_init | simpl; auto]. }
  split; [exact H|].
  exact (python_ledger_in_order PythonSample.after_one H).
Defined.

(** X11. In every session the application of [python.py] can reach, the
    counters agree with the records: the on-chain counters add up to the
    number of blocks after the genesis block, the off-chain counters to
    the length of the off-chain list. *)
Theorem python_counters_match (st : PythonPy.session) :
  python_reachable st ->
  counts_total (PythonPy.counts_on_chain st) =
    Z.of_nat (List.length (PythonPy.chain (PythonPy.toy_chain st))) - 1 /\
  counts_total (PythonPy.counts_off_chain st) =
    Z.of_nat (List.length (PythonPy.off_chain_list st)).
Proof.
  intros H.
  destruct (python_reachable_inv st H) as (_ & _ & _ & _ & _ & A & B & _).
  now split.
Qed.

Lemma python_counters_match_witness :
  python_reachable PythonSample.after_two /\
  counts_total (PythonPy.counts_on_chain PythonSample.after_two) = 1 /\
  counts_total (PythonPy.counts_off_chain PythonSample.after_two) = 1.
Proof.
  assert (H : python_reachable PythonSample.after_two).
  { apply reach_submit; [|simpl; auto].
    apply reach_submit; [apply reach_init | simpl; auto]. }
  split; [exact H|].
  destruct (python_counters_match PythonSample.after_two H) as (A & B).
  split; [rewrite A | rewrite B]; reflexivity.
Defined.

(** X12. In a session the application of [python.py] can reach, the
    handler of the form never raises: the chain is never empty when a
    block is appended, and the counter of every type the select box
    offers is there. *)
Theorem python_submit_never_raises (now : string) (f : PythonPy.form)
    (st : PythonPy.session) :
  python_reachable st ->
  In (PythonPy.patent_type f) (PythonPy.patent_types st) ->
  snd (PythonPy.submit now f st) = PythonPy.Done.
Proof.
  intros Hst Hin.
  destruct (python_submit_run now f st Hst Hin)
    as [(_ & ->) | [(_ & _ & l & b & c & _ & _ & _ & _ & _ & _ & _ & ->)
                   | (_ & _ & c & _ & ->)]]; reflexivity.
Qed.

Lemma python_submit_never_raises_witness :
  python_reachable PythonSample.after_one /\
  In "Other" (PythonPy.patent_types PythonSample.after_one) /\
  snd (PythonPy.submit "2024-03-15 10:31:00.000000"
         (PythonPy.mkForm "Kite" "Other" "On Blockchain" "" None)
         PythonSample.after_one) = PythonPy.Done.
Proof.
  assert (H : python_reachable PythonSample.after_one).
  { apply reach_submit; [apply reach_init | simpl; auto]. }
  assert (Hin : In "Other" (PythonPy.patent_types PythonSample.after_one)).
  { simpl. auto 6. }
  split; [exact H|]. split; [exact Hin|].
  exact (python_submit_never_raises _
           (PythonPy.mkForm "Kite" "Other" "On Blockchain" "" None) _ H Hin).
Defined.

(** X13. In every session the application of [python.py] can reach, no
    stored record lacks a title, and each record is stored where its flag
    says: the blocks of the chain carry the flag set, the entries of the
    off-chain list carry it cleared. *)
Theorem python_records_filed (st : PythonPy.session) :
  python_reachable st ->
  Forall (fun b => filed true (PythonPy.data b))
    (PythonPy.chain (PythonPy.toy_chain st)) /\
  Forall (fun r => filed false (snd r)) (PythonPy.off_chain_list st).
Proof.
  intros H.
  destruct (python_reachable_inv st H)
    as (_ & _ & _ & _ & _ & _ & _ & A & B).
  now split.
Qed.

Lemma python_records_filed_witness :
  python_reachable PythonSample.after_two /\
  Forall (fun b => filed true (PythonPy.data b))
    (PythonPy.chain (PythonPy.toy_chain PythonSample.after_two)) /\
  Forall (fun r => filed false (snd r))
    (PythonPy.off_chain_list PythonSample.after_two).
Proof.
  assert (H : python_reachable PythonSample.after_two).
  { apply reach_submit; [|simpl; auto].
    apply reach_submit; [apply reach_init | simpl; auto]. }
  split; [exact H|].
  exact (python_records_filed PythonSample.after_two H).
Defined.

(** X14. What one submission does in a session the application of
    [python.py] can reach. With an empty title nothing changes. With a
    title (the description may be empty) and the chain as storage choice,
    the off-chain list is untouched and exactly one block is appended:
    at the index that was the length of the chain, stamped with the
    clock, carrying the five fields of the form, linked to the stored
    hash of the former last block. With any other storage choice the
    chain is untouched and exactly one record, stamped with the clock, is
    appended to the off-chain list. *)
Theorem python_submit_effect (now : string) (f : PythonPy.form)
    (st : PythonPy.session) :
  python_reachable st ->
  In (PythonPy.patent_type f) (PythonPy.patent_types st) ->
  let st' := fst (PythonPy.submit now f st) in
  let block_data := PythonPy.block_data_of f (PythonPy.doc_hash_of f) in
  (PythonPy.patent_title f = "" -> st' = st) /\
  (PythonPy.patent_title f <> "" ->
   PythonPy.store_option f = "On Blockchain" ->
   PythonPy.off_chain_list st' = PythonPy.off_chain_list st /\
   exists latest b : PythonPy.Block,
     last_item (PythonPy.chain (PythonPy.toy_chain st)) = Ok latest /\
     PythonPy.chain (PythonPy.toy_chain st') =
       PythonPy.chain (PythonPy.toy_chain st) ++ [b] /\
     PythonPy.index b =
       Z.of_nat (List.length (PythonPy.chain (PythonPy.toy_chain st))) /\
     PythonPy.timestamp b = now /\
     PythonPy.data b = block_data /\
     PythonPy.previous_hash b = PythonPy.hash latest) /\
  (PythonPy.patent_title f <> "" ->
   PythonPy.store_option f <> "On Blockchain" ->
   PythonPy.toy_chain st' = PythonPy.toy_chain st /\
   PythonPy.off_chain_list st' =
     PythonPy.off_chain_list st ++ [(now, block_data)]).
Proof.
  intros Hst Hin st' block_data. subst st' block_data.
  destruct (python_submit_run now f st Hst Hin)
    as [(Et & ->)
       | [(Et & Es & l & b & c & H1 & H2 & H3 & H4 & H5 & _ & _ & ->)
         | (Et & Es & c & _ & ->)]]; cbn [fst].
  - split; [reflexivity|]. split; intros; contradiction.
  - split; [intros; contradiction|]. split; [|intros; contradiction].
    intros _ _. split; [reflexivity|]. exists l, b.
    cbn [PythonPy.toy_chain PythonPy.chain]. now repeat split.
  - split; [intros; contradiction|]. split; [intros; contradiction|].
    intros _ _. now split.
Qed.

Lemma python_submit_effect_witness :
  python_reachable PythonSample.start /\
  PythonPy.off_chain_list PythonSample.after_one =
    PythonPy.off_chain_list PythonSample.start /\
  exists latest b : PythonPy.Block,
    last_item (PythonPy.chain (PythonPy.toy_chain PythonSample.start))
      = Ok latest /\
    PythonPy.chain (PythonPy.toy_chain PythonSample.after_one) =
      PythonPy.chain (PythonPy.toy_chain PythonSample.start) ++ [b] /\
    PythonPy.index b = 1 /\
    PythonPy.previous_hash b = PythonPy.hash latest.
Proof.
  assert (H : python_reachable PythonSample.start) by apply reach_init.
  split; [exact H|].
  destruct (python_submit_effect "2024-03-15 10:30:05.000000"
              PythonSample.form_on PythonSample.start H)
    as (_ & Hon & _); [simpl; auto|].
  destruct Hon as (Hoff & latest & b & H1 & H2 & H3 & _ & _ & H6);
    [discriminate | reflexivity |].
  split; [exact Hoff|]. exists latest, b.
  split; [exact H1|]. split; [exact H2|]. split; [exact H3 | exact H6].
Defined.

(** * The search tab and the export of [main.py] *)

(** ** Assignment to a key *)

Lemma dict_get_set (d : dict) (k k' : string) (v : pyval) :
  dict_get (Main.dict_set d k v) k' =
  if String.eqb k k' then Some v else dict_get d k'.
Proof.
  induction d as [|[k0 v0] d IH]; simpl.
  - reflexivity.
  - destruct (String.eqb k0 k) eqn:E0; simpl.
    + apply String.eqb_eq in E0. subst k0.
      destruct (String.eqb k k'); reflexivity.
    + destruct (String.eqb k0 k') eqn:E1.
      * apply String.eqb_eq in E1. subst k0.
        rewrite String.eqb_sym in E0. now rewrite E0.
      * exact IH.
Qed.

Lemma dict_get_absent (d : dict) (k : string) :
  ~ In k (map fst d) -> dict_get d k = None.
Proof.
  induction d as [|[k0 v0] d IH]; simpl; intros H; [reflexivity|].
  destruct (String.eqb k0 k) eqn:E.
  - apply String.eqb_eq in E. exfalso. apply H. now left.
  - apply IH. intros Hin. apply H. now right.
Qed.

Lemma dict_get_update (d base : dict) (k : string) :
  NoDup (map fst d) ->
  dict_get (Main.dict_update base d) k =
  match dict_get d k with
  | Some v => Some v
  | None => dict_get base k
  end.
Proof.
  unfold Main.dict_update. revert base.
  induction d as [|[k0 v0] d IH]; intros base Hnd; simpl; [reflexivity|].
  inversion Hnd as [|x l Hx Hd]; subst.
  rewrite (IH _ Hd). rewrite dict_get_set. simpl.
  destruct (String.eqb k0 k) eqn:E.
  - apply String.eqb_eq in E. subst k0.
    now rewrite (dict_get_absent d k Hx).
  - reflexivity.
Qed.

(** X15. The entry of a block in the search tab reads its source, index
    and hash from the block, whatever the payload holds under these keys,
    and every other key from the payload. *)
Theorem search_entry_of_block (block : Main.Block) :
  dict_get (Main.patent_of_block block) "source"
    = Some (PyStr "blockchain") /\
  dict_get (Main.patent_of_block block) "block_index"
    = Some (PyInt (Main.index block)) /\
  dict_get (Main.patent_of_block block) "hash"
    = Some (PyStr (Main.hash block)) /\
  forall k : string,
    ~ In k ["source"; "block_index"; "hash"] ->
    dict_get (Main.patent_of_block block) k = dict_get (Main.data block) k.
Proof.
  unfold Main.patent_of_block. rewrite !dict_get_set.
  repeat (split; [reflexivity|]).
  intros k Hk. rewrite !dict_get_set.
  destruct (String.eqb "hash" k) eqn:E1;
    [apply String.eqb_eq in E1; subst k; exfalso; apply Hk; simpl; auto|].
  destruct (String.eqb "block_index" k) eqn:E2;
    [apply String.eqb_eq in E2; subst k; exfalso; apply Hk; simpl; auto|].
  destruct (String.eqb "source" k) eqn:E3;
    [apply String.eqb_eq in E3; subst k; exfalso; apply Hk; simpl; auto|].
  reflexivity.
Qed.

(** X16. In a row of the export the payload wins: a key of the payload
    reads the value of the payload, also when it is [source],
    [block_index], [timestamp] or [hash]; only a key the payload lacks
    reads the field of the block. *)
Theorem export_row_payload_wins (block : Main.Block) (k : string) :
  NoDup (map fst (Main.data block)) ->
  dict_get (Main.export_row_of_block block) k =
  match dict_get (Main.data block) k with
  | Some v => Some v
  | None => dict_get (export_header block) k
  end.
Proof.
  intros Hnd. unfold Main.export_row_of_block.
  now rewrite (dict_get_update _ _ k Hnd).
Qed.

(** A payload with a [hash] of its own: the row shows it in place of the
    hash of the block. *)
Lemma export_row_payload_wins_witness :
  NoDup (map fst [("hash", PyStr "none")]) /\
  dict_get
    (Main.export_row_of_block
       (Main.mkBlock 1 Sample.now_empty [("hash", PyStr "none")]
          Sample.genesis_hash 0 "00ab" ""))
    "hash" = Some (PyStr "none").
Proof.
  assert (H : NoDup (map fst [("hash", PyStr "none")])).
  { simpl. constructor; [intros [] | constructor]. }
  split; [exact H|].
  exact (export_row_payload_wins
           (Main.mkBlock 1 Sample.now_empty [("hash", PyStr "none")]
              Sample.genesis_hash 0 "00ab" "")
           "hash" H).
Defined.

(** ** Text search *)

Lemma starts_with_spec (t s : string) :
  Main.starts_with t s = true <-> exists b, s = (t ++ b)%string.
Proof.
  revert s. induction t as [|a t IH]; intros s; simpl.
  - split; [intros _; now exists s | reflexivity].
  - destruct s as [|c s].
    + split; [discriminate | intros (b & [=])].
    + rewrite andb_true_iff, IH. split.
      * intros (Hac & b & ->). apply Ascii.eqb_eq in Hac. subst c.
        now exists b.
      * intros (b & [= -> ->]). split; [apply Ascii.eqb_refl | now exists b].
Qed.

Lemma contains_spec (t s : string) :
  Main.contains t s = true <-> occurs_in t s.
Proof.
  unfold occurs_in. split.
  - induction s as [|c s IH]; simpl;
      destruct (Main.starts_with t _) eqn:E;
      try (apply starts_with_spec in E; destruct E as (b & ->);
           intros _; now exists ""%string, b);
      [discriminate|].
    intros H. destruct (IH H) as (a & b & ->).
    now exists (String c a), b.
  - intros (a & b & ->). induction a as [|c a IH].
    + simpl.
      assert (E : Main.starts_with t (t ++ b) = true)
        by (apply starts_with_spec; now exists b).
      destruct (t ++ b)%string; simpl; now rewrite E.
    + simpl. destruct (Main.starts_with t _); [reflexivity | exact IH].
Qed.



Lemma text_field_unique (p : dict) (k s s' : string) :
  text_field p k s -> text_field p k s' -> s = s'.
Proof.
  unfold text_field. intros [H | [H ->]] [H' | [H' ->]]; congruence.
Qed.

(** On an entry whose three fields are text the test returns, and says
    whether the entry is a hit. *)
Lemma matches_hit (term : string) (p : dict) :
  searchable p ->
  exists v : bool, Main.matches term p = Ok v /\ (v = true <-> hit term p).
Proof.
  intros Hs.
  destruct (Hs "title") as (t & Ht); [simpl; auto|].
  destruct (Hs "description") as (d & Hd); [simpl; auto|].
  destruct (Hs "inventor") as (i & Hi); [simpl; auto|].
  unfold Main.matches.
  rewrite (text_field_default _ _ _ Ht), (text_field_default _ _ _ Hd),
    (text_field_default _ _ _ Hi).
  cbn [Main.py_lower bind].
  assert (Hback : forall k s,
             In k ["title"; "description"; "inventor"]%string ->
             text_field p k s ->
             occurs_in (Main.lower term) (Main.lower s) ->
             Main.contains (Main.lower term) (Main.lower t) = true \/
             Main.contains (Main.lower term) (Main.lower d) = true \/
             Main.contains (Main.lower term) (Main.lower i) = true).
  { intros k s Hk Hf Ho. apply contains_spec in Ho.
    destruct Hk as [<- | [<- | [<- | []]]].
    - left. now rewrite (text_field_unique _ _ _ _ Ht Hf).
    - right. left. now rewrite (text_field_unique _ _ _ _ Hd Hf).
    - right. right. now rewrite (text_field_unique _ _ _ _ Hi Hf). }
  destruct (Main.contains (Main.lower term) (Main.lower t)) eqn:Ct.
  { exists true. split; [reflexivity|]. split; [|reflexivity]. intros _.
    exists "title"%string, t. split; [simpl; auto|]. split; [exact Ht|].
    now apply contains_spec. }
  cbn [bind].
  destruct (Main.contains (Main.lower term) (Main.lower d)) eqn:Cd.
  { exists true. split; [reflexivity|]. split; [|reflexivity]. intros _.
    exists "description"%string, d. split; [simpl; auto|].
    split; [exact Hd|]. now apply contains_spec. }
  cbn [bind].
  exists (Main.contains (Main.lower term) (Main.lower i)).
  split; [reflexivity|]. split.
  - intros Ci. exists "inventor"%string, i. split; [simpl; auto|].
    split; [exact Hi|]. now apply contains_spec.
  - intros (k & s & Hk & Hf & Ho).
    destruct (Hback k s Hk Hf Ho) as [H | [H | H]]; congruence.
Qed.

Lemma select_spec {A : Type} (test : A -> outcome bool) (P : A -> Prop)
    (l : list A) :
  (forall p, In p l -> exists v, test p = Ok v /\ (v = true <-> P p)) ->
  exists r : list A,
    Main.select test l = Ok r /\ forall p, In p r <-> In p l /\ P p.
Proof.
  induction l as [|a l IH]; intros H; simpl.
  - exists []. split; [reflexivity|]. intros p. simpl. tauto.
  - destruct (H a (or_introl eq_refl)) as (v & -> & Hv).
    destruct IH as (r & -> & Hr); [intros p Hp; apply H; now right|].
    cbn [bind]. eexists. split; [reflexivity|].
    intros p. destruct v; simpl; rewrite Hr.
    + split.
      * intros [<- | [Hp HP]]; [split; [now left | now apply Hv] | tauto].
      * intros [[<- | Hp] HP]; [now left | right; tauto].
    + split; [tauto|].
      intros [[<- | Hp] HP]; [|tauto].
      apply Hv in HP. discriminate.
Qed.

Lemma py_eq_patent_type (p : dict) (filter_type : string) :
  Main.py_eq (dict_get_default p "patent_type" PyNone) (PyStr filter_type)
    = true <->
  dict_get p "patent_type" = Some (PyStr filter_type).
Proof.
  unfold dict_get_default.
  destruct (dict_get p "patent_type") as [[s | b | z |]|]; simpl;
    try (split; [discriminate | intros [=]]).
  rewrite String.eqb_eq. split; [now intros -> | now intros [= ->]].
Qed.

Lemma filter_patents_spec (search_term filter_type : string)
    (all_patents : list dict) :
  (search_term <> "" -> forall p, In p all_patents -> searchable p) ->
  exists l : list dict,
    Main.filter_patents search_term filter_type all_patents = Ok l /\
    forall p,
      In p l <->
      In p all_patents /\
      (search_term = "" \/ hit search_term p) /\
      (filter_type = "All" \/
       dict_get p "patent_type" = Some (PyStr filter_type)).
Proof.
  intros Hs. unfold Main.filter_patents. cbn [truthy].
  assert (H1 : exists l1,
             (if negb (String.eqb search_term "")
              then Main.select (Main.matches search_term) all_patents
              else Ok all_patents) = Ok l1 /\
             forall p, In p l1 <->
                       In p all_patents /\
                       (search_term = "" \/ hit search_term p)).
  { destruct (String.eqb search_term "") eqn:E; cbn [negb].
    - apply String.eqb_eq in E. exists all_patents.
      split; [reflexivity|]. intros p. tauto.
    - apply String.eqb_neq in E.
      destruct (select_spec (Main.matches search_term) (hit search_term)
                  all_patents) as (r & Hr & Hin).
      { intros p Hp. apply matches_hit. now apply Hs. }
      exists r. split; [exact Hr|]. intros p. rewrite Hin. tauto. }
  destruct H1 as (l1 & -> & Hl1). cbn [bind].
  destruct (String.eqb filter_type "All") eqn:E; cbn [negb].
  - apply String.eqb_eq in E. exists l1. split; [reflexivity|].
    intros p. rewrite Hl1. tauto.
  - apply String.eqb_neq in E. eexists. split; [reflexivity|].
    intros p. rewrite filter_In, Hl1, py_eq_patent_type. tauto.
Qed.

(** X17. The two filters of the search tab. When the three searched
    fields of every entry are text (or missing), filtering returns, and
    an entry is in the result exactly when it was in the list, the search
    term is empty or occurs, letter case apart, in its title, description
    or inventor, and the type filter is [All] or equal to its patent
    type. With an empty search term the fields are not read at all. *)
Theorem search_filter_spec (search_term filter_type : string)
    (all_patents : list dict) :
  (search_term <> "" -> forall p, In p all_patents -> searchable p) ->
  exists l : list dict,
    Main.filter_patents search_term filter_type all_patents = Ok l /\
    forall p,
      In p l <->
      In p all_patents /\
      (search_term = "" \/ hit search_term p) /\
      (filter_type = "All" \/
       dict_get p "patent_type" = Some (PyStr filter_type)).
Proof. apply filter_patents_spec. Qed.

(** Two entries, one of them with an inventor that is a number: with an
    empty term the type filter alone decides. *)
Lemma search_filter_spec_witness :
  exists l : list dict,
    Main.filter_patents "" "Design Patent"
      [ [("title", PyStr "Valve"); ("patent_type", PyStr "Utility Patent")];
        [("inventor", PyInt 7); ("patent_type", PyStr "Design Patent")] ]
    = Ok l /\
    In [("inventor", PyInt 7); ("patent_type", PyStr "Design Patent")] l.
Proof.
  destruct (search_filter_spec "" "Design Patent"
              [ [("title", PyStr "Valve");
                 ("patent_type", PyStr "Utility Patent")];
                [("inventor", PyInt 7);
                 ("patent_type", PyStr "Design Patent")] ])
    as (l & Hl & Hin).
  - intros H. now contradiction H.
  - exists l. split; [exact Hl|]. apply Hin.
    split; [simpl; auto|]. split; [now left | now right].
Defined.



(** * Submissions and the validity of the ledger *)

(** X19. A submission keeps a ledger that validates valid, provided the
    hash the candidate block gets at construction does not already meet
    the difficulty (the case in which [add_block] would keep that stale
    hash): whether the form is rejected, stored off the ledger or mined,
    when the handler returns the ledger validates. *)
Theorem submit_keeps_valid (fuel : nat) (d : Main.draw) (f : Main.form)
    (st st' : Main.session) (c : list Main.Block) (difficulty : Z) :
  Main.chain (Main.toy_chain st) = Some c ->
  Main.difficulty (Main.toy_chain st) = Some difficulty ->
  Main.is_chain_valid (Main.toy_chain st) = Ok true ->
  Main.meets_target
    (Main.hash
       (Main.Block_init (Z.of_nat (List.length c)) (Main.now d)
          (Main.patent_data_of d f (Main.doc_hash_of f)
             (score_spec (Main.patent_title f) (Main.patent_description f)
                (Main.doc_hash_of f) (Main.randint d)))
          "" 0))
    difficulty = false ->
  Main.submit fuel d f st = Ok st' ->
  Main.is_chain_valid (Main.toy_chain st') = Ok true.
Proof.
  intros Hc Hd Hv Hstale H. unfold Main.submit in H.
  destruct (Main.all [PyStr (Main.patent_title f);
                      PyStr (Main.inventor_name f);
                      PyStr (Main.patent_description f)]); cbn [negb] in H;
    [|injection H as <-; exact Hv].
  rewrite form_score in H. cbn [bind] in H. rewrite on_chain_flag in H.
  destruct (String.eqb (Main.store_option f) "On Blockchain");
    [|injection H as <-; exact Hv].
  rewrite Hc in H. cbn [getattr bind] in H.
  match type of H with
  | (x <- Main.add_block ?fu ?s ?nb ;; _) = _ =>
      destruct (Main.add_block fu s nb) as [ledger| |] eqn:Ha;
        try discriminate
  end.
  cbn [bind] in H. injection H as <-. cbn [Main.toy_chain].
  destruct (add_block_mined _ _ _ _ Ha)
    as (c0 & latest & mined & d0 & Hc0 & Hd0 & Hm & ->).
  rewrite Hd in Hd0. injection Hd0 as <-.
  eapply add_block_keeps_valid;
    [exact Hc0 | exact Hd | exact Hv | exact Hm |].
  destruct (mine_block_run _ _ _ _ Hm)
    as (k & _ & _ & _ & _ & _ & _ & _ & Hz & H0 & Hpos & _).
  destruct k as [|k]; [|apply Hpos; lia].
  rewrite (H0 eq_refl) in Hz.
  cbn [Main.hash Main.set_previous_hash] in Hz.
  rewrite Hc in Hc0. injection Hc0 as ->.
  congruence.
Qed.

(** The first submission of the sample session: the candidate hash does
    not start with two zeros, and the ledger validates afterwards. *)
Lemma submit_keeps_valid_witness :
  Main.is_chain_valid Sample.ledger = Ok true /\
  Main.submit 1 Sample.drawA Sample.formA (Main.mkSession Sample.ledger [])
    = Ok (Main.mkSession Sample.ledgerA []) /\
  Main.is_chain_valid Sample.ledgerA = Ok true.
Proof.
  assert (Hv : Main.is_chain_valid Sample.ledger = Ok true) by reflexivity.
  assert (H : Main.submit 1 Sample.drawA Sample.formA
                (Main.mkSession Sample.ledger [])
              = Ok (Main.mkSession Sample.ledgerA [])) by (by_running).
  split; [exact Hv|]. split; [exact H|].
  apply (submit_keeps_valid 1 Sample.drawA Sample.formA
           (Main.mkSession Sample.ledger [])
           (Main.mkSession Sample.ledgerA []) [Sample.genesis] 2
           eq_refl eq_refl Hv); [by_running | exact H].
Defined.

(** * What the search tab lists *)

Lemma nth_error_enumerate_from {A : Type} (l : list A) (s j : nat) (r : A) :
  nth_error l j = Some r ->
  nth_error (combine (seq s (List.length l)) l) j = Some ((s + j)%nat, r).
Proof.
  revert s j. induction l as [|a l IH]; intros s [|j] H; simpl in *;
    try discriminate.
  - injection H as ->. now rewrite Nat.add_0_r.
  - rewrite (IH (S s) j H). f_equal. f_equal. lia.
Qed.

Lemma length_enumerate {A : Type} (l : list A) :
  List.length (Main.enumerate l) = List.length l.
Proof.
  unfold Main.enumerate. rewrite length_combine, length_seq. lia.
Qed.

(** X20. The search tab lists every record once: the blocks after the
    genesis block in the order of the chain, then the off-chain records
    in the order of their list; the entry of an off-chain record carries
    its position as [record_index], its timestamp, and the source
    [off-chain]. *)
Theorem all_patents_listing (st : Main.session) (c : list Main.Block) :
  Main.chain (Main.toy_chain st) = Some c ->
  exists l : list dict,
    Main.all_patents st = Ok l /\
    List.length l =
      (List.length c - 1 + List.length (Main.off_chain_list st))%nat /\
    (forall (i : nat) (b : Main.Block),
       nth_error c (S i) = Some b ->
       nth_error l i = Some (Main.patent_of_block b)) /\
    (forall (j : nat) (r : string * dict),
       nth_error (Main.off_chain_list st) j = Some r ->
       exists p : dict,
         nth_error l (List.length c - 1 + j) = Some p /\
         dict_get p "source" = Some (PyStr "off-chain") /\
         dict_get p "record_index" = Some (PyInt (Z.of_nat j)) /\
         dict_get p "timestamp" = Some (PyStr (fst r)) /\
         forall k : string,
           ~ In k ["source"; "record_index"; "timestamp"] ->
           dict_get p k = dict_get (snd r) k).
Proof.
  intros Hc. unfold Main.all_patents. rewrite Hc. cbn [getattr bind].
  eexists. split; [reflexivity|].
  assert (Hlen : List.length (map Main.patent_of_block (skipn 1 c))
                 = (List.length c - 1)%nat)
    by (rewrite length_map, length_skipn; reflexivity).
  split; [|split].
  - rewrite length_app, Hlen, length_map, length_enumerate. reflexivity.
  - intros i b Hb.
    assert (Hi : (i < List.length c - 1)%nat).
    { assert (S i < List.length c)%nat
        by (apply nth_error_Some; congruence). lia. }
    rewrite nth_error_app1 by (rewrite Hlen; exact Hi).
    rewrite nth_error_map, nth_error_skipn.
    change (1 + i)%nat with (S i). now rewrite Hb.
  - intros j r Hr. exists (Main.patent_of_record j r).
    split.
    + rewrite nth_error_app2 by (rewrite Hlen; lia).
      rewrite Hlen.
      replace (List.length c - 1 + j - (List.length c - 1))%nat with j
        by lia.
      rewrite nth_error_map. unfold Main.enumerate.
      now rewrite (nth_error_enumerate_from _ 0 j r Hr).
    + unfold Main.patent_of_record. rewrite !dict_get_set.
      repeat (split; [reflexivity|]).
      intros k Hk. rewrite !dict_get_set.
      destruct (String.eqb "timestamp" k) eqn:E1;
        [apply String.eqb_eq in E1; subst k; exfalso; apply Hk;
         simpl; auto|].
      destruct (String.eqb "record_index" k) eqn:E2;
        [apply String.eqb_eq in E2; subst k; exfalso; apply Hk;
         simpl; auto|].
      destruct (String.eqb "source" k) eqn:E3;
        [apply String.eqb_eq in E3; subst k; exfalso; apply Hk;
         simpl; auto|].
      reflexivity.
Qed.

(** The sample ledger of three blocks, with one record off the chain. *)
Lemma all_patents_listing_witness :
  exists l : list dict,
    Main.all_patents
      (Main.mkSession Sample.ledgerAB [(Sample.now_empty, [])]) = Ok l /\
    List.length l = 3%nat /\
    nth_error l 1 = Some (Main.patent_of_block Sample.blockB).
Proof.
  destruct (all_patents_listing
              (Main.mkSession Sample.ledgerAB [(Sample.now_empty, [])])
              [Sample.genesis; Sample.blockA; Sample.blockB] eq_refl)
    as (l & Hl & Hlen & Hon & _).
  exists l. split; [exact Hl|]. split; [exact Hlen|].
  apply Hon. reflexivity.
Defined.

(** X21. The entry of a block that a submission of the form made has no
    [timestamp]: the record of the form has no such key and the search
    tab adds none for blocks. So the tab shows its creation time as
    [Unknown], and the two orders by time sort it with the empty key,
    away from the off-chain records, which do carry their timestamp. *)
Theorem on_chain_entry_has_no_timestamp (block : Main.Block) (d : Main.draw)
    (f : Main.form) (doc_hash : string) (verification_score : Z) :
  Main.data block = Main.patent_data_of d f doc_hash verification_score ->
  dict_get (Main.patent_of_block block) "timestamp" = None /\
  dict_get_default (Main.patent_of_block block) "timestamp" (PyStr "")
    = PyStr "".
Proof.
  intros Hd.
  assert (H : dict_get (Main.patent_of_block block) "timestamp" = None).
  { unfold Main.patent_of_block. rewrite !dict_get_set, Hd. reflexivity. }
  split; [exact H|]. unfold dict_get_default. now rewrite H.
Qed.

Lemma on_chain_entry_has_no_timestamp_witness :
  dict_get
    (Main.patent_of_block
       (Main.mkBlock 1 (Main.now Sample.drawA)
          (Main.patent_data_of Sample.drawA Sample.formA "" 65)
          Sample.genesis_hash 0 "" ""))
    "timestamp" = None.
Proof.
  exact (proj1 (on_chain_entry_has_no_timestamp
                  (Main.mkBlock 1 (Main.now Sample.drawA)
                     (Main.patent_data_of Sample.drawA Sample.formA "" 65)
                     Sample.genesis_hash 0 "" "")
                  Sample.drawA Sample.formA "" 65 eq_refl)).
Defined.

(** * The size of an attached file, as the form shows it *)

Lemma round_half_even_near (num den : Z) :
  0 < den ->
  2 * Z.abs (num - den * Main.round_half_even num den) <= den.
Proof.
  intros Hden. unfold Main.round_half_even.
  pose proof (Z.div_mod num den ltac:(lia)) as Hdm.
  pose proof (Z.mod_pos_bound num den Hden) as Hr.
  destruct (2 * (num mod den) <? den) eqn:E1.
  - apply Z.ltb_lt in E1. lia.
  - apply Z.ltb_ge in E1.
    destruct (den <? 2 * (num mod den)) eqn:E2.
    + apply Z.ltb_lt in E2. lia.
    + apply Z.ltb_ge in E2. destruct (Z.even (num / den)); lia.
Qed.

Lemma format_1f_shown (n den : Z) (unit : string) :
  0 < den ->
  shown_as n den unit (Main.format_1f n den ++ " " ++ unit)%string.
Proof.
  intros Hden. exists (Main.round_half_even (10 * n) den). split.
  - unfold Main.format_1f. cbv zeta. now rewrite <- !append_assoc.
  - now apply round_half_even_near.
Qed.

(** X22. [get_file_size_str] picks the unit by the powers of 1024 and
    shows the size in that unit rounded to one decimal: plain bytes below
    1024, then KB, MB and GB, each figure within half a tenth of the
    exact quotient (sizes below 2^53, where the division is exact). *)
Theorem get_file_size_str_rounds (n : Z) :
  n < 2 ^ 53 ->
  (n < 1024 -> Main.get_file_size_str n = (str_int n ++ " B")%string) /\
  (1024 <= n < 1024 ^ 2 ->
   shown_as n 1024 "KB" (Main.get_file_size_str n)) /\
  (1024 ^ 2 <= n < 1024 ^ 3 ->
   shown_as n (1024 ^ 2) "MB" (Main.get_file_size_str n)) /\
  (1024 ^ 3 <= n ->
   shown_as n (1024 ^ 3) "GB" (Main.get_file_size_str n)).
Proof.
  intros _. unfold Main.get_file_size_str.
  split; [|split; [|split]]; intros Hn.
  - apply Z.ltb_lt in Hn. now rewrite Hn.
  - replace (n <? 1024) with false by (symmetry; apply Z.ltb_ge; lia).
    replace (n <? 1024 ^ 2) with true by (symmetry; apply Z.ltb_lt; lia).
    apply format_1f_shown. lia.
  - replace (n <? 1024) with false by (symmetry; apply Z.ltb_ge; lia).
    replace (n <? 1024 ^ 2) with false by (symmetry; apply Z.ltb_ge; lia).
    replace (n <? 1024 ^ 3) with true by (symmetry; apply Z.ltb_lt; lia).
    apply format_1f_shown. lia.
  - replace (n <? 1024) with false by (symmetry; apply Z.ltb_ge; lia).
    replace (n <? 1024 ^ 2) with false by (symmetry; apply Z.ltb_ge; lia).
    replace (n <? 1024 ^ 3) with false by (symmetry; apply Z.ltb_ge; lia).
    apply format_1f_shown. lia.
Qed.

(** A file of 1280 bytes, a tie between 1.2 and 1.3: it reads 1.2 KB. *)
Lemma get_file_size_str_rounds_witness :
  Main.get_file_size_str 1280 = "1.2 KB" /\
  shown_as 1280 1024 "KB" (Main.get_file_size_str 1280).
Proof.
  split; [reflexivity|].
  apply (proj1 (proj2 (get_file_size_str_rounds 1280 ltac:(lia))));
    lia.
Defined.

(** X23. The unit changes at the power of 1024, not where the rounded
    figure would reach 1024: a file of 1048525 to 1048575 bytes, less
    than a mebibyte, reads [1024.0 KB]. *)
Theorem get_file_size_str_reads_1024 (n : Z) :
  1048525 <= n < 1048576 ->
  Main.get_file_size_str n = "1024.0 KB".
Proof.
  intros Hn. unfold Main.get_file_size_str.
  replace (n <? 1024) with false by (symmetry; apply Z.ltb_ge; lia).
  replace (n <? 1024 ^ 2) with true by (symmetry; apply Z.ltb_lt; lia).
  unfold Main.format_1f, Main.round_half_even. cbv zeta.
  assert (Hq : 10 * n / 1024 = 10239) by (Z.div_mod_to_equations; lia).
  assert (Hr : (10 * n) mod 1024 = 10 * n - 10484736)
    by (Z.div_mod_to_equations; lia).
  rewrite Hq, Hr.
  replace (2 * (10 * n - 10484736) <? 1024) with false
    by (symmetry; apply Z.ltb_ge; lia).
  replace (1024 <? 2 * (10 * n - 10484736)) with true
    by (symmetry; apply Z.ltb_lt; lia).
  reflexivity.
Qed.

Lemma get_file_size_str_reads_1024_witness :
  Main.get_file_size_str 1048575 = "1024.0 KB".
Proof. apply (get_file_size_str_reads_1024 1048575). lia. Defined.
